(** * unittest_style_grader: outcome state machine and score aggregation

    A shallow embedding of [utsg_types.py], [utsg_testcase.py],
    [utsg_test_result.py] and [run_tests.py].

    Python objects that are shared and mutated (test-case infos, test cases,
    the partition lists) live in a store and are named by their address;
    methods are computations in a state-and-exception monad over that store.
    Python floats are modelled by exact rationals ([Q]): rounding is not
    modelled, ordering and the arithmetic identities used below are. *)

From Stdlib Require Import QArith Lia.
From stdpp Require Import base list strings pretty.

(** ** utsg_types.py *)

Inductive UTSGTestStatus : Type :=
| PASSED
| FAILED
| CRASHED
| RUNNING
| SCHEDULED.

Definition UTSGTestStatus_eqb (a b : UTSGTestStatus) : bool :=
  match a, b with
  | PASSED, PASSED | FAILED, FAILED | CRASHED, CRASHED
  | RUNNING, RUNNING | SCHEDULED, SCHEDULED => true
  | _, _ => false
  end.

Record PrairieLearnImage : Type := { label : string; url : string }.

(** The dictionary built by [as_prairielearn_json_dict]: three required keys,
    four optional ones ([None] when the key is left out). *)
Module PrairieLearnTestCaseJsonDict.
Record t : Type := mk {
  name : string;
  max_points : Q;
  points : option Q;
  description : option string;
  message : option string;
  output : option string;
  images : option (list PrairieLearnImage)
}.
End PrairieLearnTestCaseJsonDict.

(** ** Python values *)

Definition loc : Type := nat.

Definition nl : string := String (Ascii.ascii_of_nat 10) EmptyString.

(** [a < b] on floats. *)
Definition Qlt_bool (a b : Q) : bool := negb (Qle_bool b a).

(** Python's [max(a, b)] keeps [a] unless [b > a]; [min(a, b)] keeps [a]
    unless [b < a]. *)
Definition py_max (a b : Q) : Q := if Qlt_bool a b then b else a.
Definition py_min (a b : Q) : Q := if Qlt_bool b a then b else a.

(** Lines 218-219 of [stopTestRun]: [max] with the floor, then [min] with
    the ceiling. *)
Definition clamp (floor ceiling r : Q) : Q := py_min ceiling (py_max floor r).

(** Truthiness of an optional string ([None] and [''] are falsy). *)
Definition truthy_str (s : option string) : bool :=
  match s with
  | Some EmptyString => false
  | Some _ => true
  | None => false
  end.

Definition truthy_list {A : Type} (l : list A) : bool :=
  match l with
  | [] => false
  | _ => true
  end.

(** Exceptions that test code, the recorder and unittest raise.
    [OtherException] stands for any [Exception] that is none of the named
    ones; it carries the texts of its type and value.  [SkipTest] and
    [_ShouldStop] are the two exceptions of [unittest.case] that the test
    runner treats on their own.  [KeyboardInterrupt] and [SystemExit] are
    [BaseException]s that are not [Exception]s. *)
Inductive exn : Type :=
| UngradableError (message : string)
| AssertionError (value : string)
| TypeError (value : string)
| OtherException (type value : string)
| SkipTest (reason : string)
| _ShouldStop
| KeyboardInterrupt
| SystemExit (code : string).

(** [isinstance(e, Exception)] *)
Definition is_Exception (e : exn) : bool :=
  match e with
  | KeyboardInterrupt | SystemExit _ => false
  | _ => true
  end.

Definition is_AssertionError (e : exn) : bool :=
  match e with
  | AssertionError _ => true
  | _ => false
  end.

Definition exn_type (e : exn) : string :=
  match e with
  | UngradableError _ => "<class 'unittest_style_grader.utsg_testcase.UngradableError'>"
  | AssertionError _ => "<class 'AssertionError'>"
  | TypeError _ => "<class 'TypeError'>"
  | OtherException ty _ => ty
  | SkipTest _ => "<class 'unittest.case.SkipTest'>"
  | _ShouldStop => "<class 'unittest.case._ShouldStop'>"
  | KeyboardInterrupt => "<class 'KeyboardInterrupt'>"
  | SystemExit _ => "<class 'SystemExit'>"
  end.

Definition exn_str (e : exn) : string :=
  match e with
  | UngradableError _ => ""
  | AssertionError v => v
  | TypeError v => v
  | OtherException _ v => v
  | SkipTest reason => reason
  | _ShouldStop => EmptyString
  | KeyboardInterrupt => EmptyString
  | SystemExit code => code
  end.

(** [sys.exc_info()]: the exception and its formatted traceback. *)
Record SysExceptionType : Type := { exception : exn; tb : string }.

(** ** utsg_testcase.py: UTSGTestCaseInfo *)

Module UTSGTestCaseInfo.
Record t : Type := mk {
  name : string;
  description : option string;
  max_points : Q;
  points_lost_on_failure : Q;
  include_in_results : bool;
  hidden : bool;
  points : option Q;
  message : option string;
  output : option string;
  images : list PrairieLearnImage;
  _status : UTSGTestStatus
}.

(** The dataclass constructor: the last five fields are [init=False]. *)
Definition new (name : string) (description : option string)
    (max_points points_lost_on_failure : Q)
    (include_in_results hidden : bool) : t :=
  mk name description max_points points_lost_on_failure include_in_results
     hidden None None None [] SCHEDULED.

Definition default : t := new "Unnamed Test" None 1 0 true false.

Definition set_name (v : string) (i : t) : t :=
  mk v (description i) (max_points i) (points_lost_on_failure i)
     (include_in_results i) (hidden i) (points i) (message i) (output i)
     (images i) (_status i).
Definition set_description (v : option string) (i : t) : t :=
  mk (name i) v (max_points i) (points_lost_on_failure i)
     (include_in_results i) (hidden i) (points i) (message i) (output i)
     (images i) (_status i).
Definition set_max_points (v : Q) (i : t) : t :=
  mk (name i) (description i) v (points_lost_on_failure i)
     (include_in_results i) (hidden i) (points i) (message i) (output i)
     (images i) (_status i).
Definition set_points_lost_on_failure (v : Q) (i : t) : t :=
  mk (name i) (description i) (max_points i) v
     (include_in_results i) (hidden i) (points i) (message i) (output i)
     (images i) (_status i).
Definition set_include_in_results (v : bool) (i : t) : t :=
  mk (name i) (description i) (max_points i) (points_lost_on_failure i)
     v (hidden i) (points i) (message i) (output i)
     (images i) (_status i).
Definition set_hidden (v : bool) (i : t) : t :=
  mk (name i) (description i) (max_points i) (points_lost_on_failure i)
     (include_in_results i) v (points i) (message i) (output i)
     (images i) (_status i).
Definition set_points (v : option Q) (i : t) : t :=
  mk (name i) (description i) (max_points i) (points_lost_on_failure i)
     (include_in_results i) (hidden i) v (message i) (output i)
     (images i) (_status i).
Definition set_message (v : option string) (i : t) : t :=
  mk (name i) (description i) (max_points i) (points_lost_on_failure i)
     (include_in_results i) (hidden i) (points i) v (output i)
     (images i) (_status i).
Definition set_output (v : option string) (i : t) : t :=
  mk (name i) (description i) (max_points i) (points_lost_on_failure i)
     (include_in_results i) (hidden i) (points i) (message i) v
     (images i) (_status i).
Definition set_images (v : list PrairieLearnImage) (i : t) : t :=
  mk (name i) (description i) (max_points i) (points_lost_on_failure i)
     (include_in_results i) (hidden i) (points i) (message i) (output i)
     v (_status i).
Definition set__status (v : UTSGTestStatus) (i : t) : t :=
  mk (name i) (description i) (max_points i) (points_lost_on_failure i)
     (include_in_results i) (hidden i) (points i) (message i) (output i)
     (images i) v.

(** [as_prairielearn_json_dict]: the required keys always, an optional key
    only when its value is truthy. *)
Definition as_prairielearn_json_dict (self : t) : PrairieLearnTestCaseJsonDict.t :=
  PrairieLearnTestCaseJsonDict.mk
    (name self) (max_points self) (points self)
    (if truthy_str (description self) then description self else None)
    (if truthy_str (message self) then message self else None)
    (if truthy_str (output self) then output self else None)
    (if truthy_list (images self) then Some (images self) else None).
End UTSGTestCaseInfo.

(** ** utsg_testcase.py: UTSGSubTest and UTSGTestCase objects *)

Module UTSGSubTest.
Record t : Type := mk {
  utsg_test_case_info : loc;   (* address of its UTSGTestCaseInfo *)
  parent_test_case : loc       (* address of the parent UTSGTestCase *)
}.
End UTSGSubTest.

Module UTSGTestCase.
Record t : Type := mk {
  utsg_score_floor : Q;
  utsg_score_ceiling : Q;
  message : option string;
  output : option string;
  images : list PrairieLearnImage;
  utsg_test_case_info : loc;
  utsg_subtests : list UTSGSubTest.t
}.

Definition default : t := mk 0 1 None None [] 0 [].

Definition set_utsg_subtests (v : list UTSGSubTest.t) (c : t) : t :=
  mk (utsg_score_floor c) (utsg_score_ceiling c) (message c) (output c)
     (images c) (utsg_test_case_info c) v.
Definition set_utsg_score_floor (v : Q) (c : t) : t :=
  mk v (utsg_score_ceiling c) (message c) (output c)
     (images c) (utsg_test_case_info c) (utsg_subtests c).
Definition set_utsg_score_ceiling (v : Q) (c : t) : t :=
  mk (utsg_score_floor c) v (message c) (output c)
     (images c) (utsg_test_case_info c) (utsg_subtests c).
End UTSGTestCase.

(** ** utsg_test_result.py: UTSGRunSummary and UTSGTestResult objects *)

Module UTSGRunSummary.
Record t : Type := mk {
  tests : loc;                 (* address of the list object *)
  num_tests_available : nat;
  num_tests_ran : nat;
  num_tests_passed : nat;
  num_tests_failed : nat;
  points_available : Q;
  points_earned : Q
}.
End UTSGRunSummary.

(** The dictionary [utsg_results]; a key that is absent is [None]. *)
Module Results.
Record t : Type := mk {
  gradable : option bool;
  score : option Q;
  tests : option (list PrairieLearnTestCaseJsonDict.t);
  images : option (list PrairieLearnImage);
  message : option string;
  output : option string
}.

Definition empty : t := mk None None None None None None.

Definition set_gradable (v : bool) (d : t) : t :=
  mk (Some v) (score d) (tests d) (images d) (message d) (output d).
Definition set_score (v : Q) (d : t) : t :=
  mk (gradable d) (Some v) (tests d) (images d) (message d) (output d).
Definition set_tests (v : list PrairieLearnTestCaseJsonDict.t) (d : t) : t :=
  mk (gradable d) (score d) (Some v) (images d) (message d) (output d).
Definition set_images (v : list PrairieLearnImage) (d : t) : t :=
  mk (gradable d) (score d) (tests d) (Some v) (message d) (output d).
Definition set_message (v : string) (d : t) : t :=
  mk (gradable d) (score d) (tests d) (images d) (Some v) (output d).
Definition set_output (v : string) (d : t) : t :=
  mk (gradable d) (score d) (tests d) (images d) (message d) (Some v).
End Results.

Module UTSGTestResult.
Record t : Type := mk {
  utsg_results : Results.t;
  _utsg_score_floor : Q;
  _utsg_score_ceiling : Q;
  visible_tests_info : loc;
  hidden_tests_info : loc;
  excluded_tests_info : loc;
  _tester_crashed : bool;
  scored : bool;
  shouldStop : bool;           (* inherited from unittest.TestResult *)
  failfast : bool;             (* inherited from unittest.TestResult *)
  skipped : list string        (* inherited: the reasons of the skips *)
}.

Definition set_utsg_results (v : Results.t) (r : t) : t :=
  mk v (_utsg_score_floor r) (_utsg_score_ceiling r) (visible_tests_info r)
     (hidden_tests_info r) (excluded_tests_info r) (_tester_crashed r)
     (scored r) (shouldStop r) (failfast r) (skipped r).
Definition set__utsg_score_floor (v : Q) (r : t) : t :=
  mk (utsg_results r) v (_utsg_score_ceiling r) (visible_tests_info r)
     (hidden_tests_info r) (excluded_tests_info r) (_tester_crashed r)
     (scored r) (shouldStop r) (failfast r) (skipped r).
Definition set__utsg_score_ceiling (v : Q) (r : t) : t :=
  mk (utsg_results r) (_utsg_score_floor r) v (visible_tests_info r)
     (hidden_tests_info r) (excluded_tests_info r) (_tester_crashed r)
     (scored r) (shouldStop r) (failfast r) (skipped r).
Definition set_scored (v : bool) (r : t) : t :=
  mk (utsg_results r) (_utsg_score_floor r) (_utsg_score_ceiling r)
     (visible_tests_info r) (hidden_tests_info r) (excluded_tests_info r)
     (_tester_crashed r) v (shouldStop r) (failfast r) (skipped r).
Definition set_shouldStop (v : bool) (r : t) : t :=
  mk (utsg_results r) (_utsg_score_floor r) (_utsg_score_ceiling r)
     (visible_tests_info r) (hidden_tests_info r) (excluded_tests_info r)
     (_tester_crashed r) (scored r) v (failfast r) (skipped r).
Definition set_skipped (v : list string) (r : t) : t :=
  mk (utsg_results r) (_utsg_score_floor r) (_utsg_score_ceiling r)
     (visible_tests_info r) (hidden_tests_info r) (excluded_tests_info r)
     (_tester_crashed r) (scored r) (shouldStop r) (failfast r) v.
End UTSGTestResult.

(** ** The store *)

(** [infos], [cases] and [lists] map an address to the object stored there;
    the [next_*] counters are the first addresses not yet handed out.
    [recorder] is the one [UTSGTestResult] of the run and [result_file] is
    the content of the file at [utsg_result_location] ([None] while there is
    no file).  [outcome_success], [outcome_expecting_failure] and
    [outcome_expectedFailure] are the attributes of unittest's [_Outcome]
    of the test that is running, and [old_success] holds, for the scope of
    each sub-test (named by the address of its info), the local variable
    [old_success] of its suspended [testPartExecutor]. *)
Record World : Type := mkWorld {
  infos : loc -> UTSGTestCaseInfo.t;
  next_info : loc;
  cases : loc -> UTSGTestCase.t;
  next_case : loc;
  lists : loc -> list loc;
  next_list : loc;
  recorder : UTSGTestResult.t;
  outcome_success : bool;
  result_file : option Results.t;
  outcome_expecting_failure : bool;
  outcome_expectedFailure : option SysExceptionType;
  old_success : loc -> bool
}.

Definition upd {A : Type} (f : loc -> A) (l : loc) (v : A) : loc -> A :=
  fun l' => if Nat.eqb l' l then v else f l'.

Definition set_infos (v : loc -> UTSGTestCaseInfo.t) (w : World) : World :=
  mkWorld v (next_info w) (cases w) (next_case w) (lists w)
          (next_list w) (recorder w) (outcome_success w) (result_file w)
          (outcome_expecting_failure w) (outcome_expectedFailure w) (old_success w).
Definition set_next_info (v : loc) (w : World) : World :=
  mkWorld (infos w) v (cases w) (next_case w) (lists w)
          (next_list w) (recorder w) (outcome_success w) (result_file w)
          (outcome_expecting_failure w) (outcome_expectedFailure w) (old_success w).
Definition set_cases (v : loc -> UTSGTestCase.t) (w : World) : World :=
  mkWorld (infos w) (next_info w) v (next_case w) (lists w)
          (next_list w) (recorder w) (outcome_success w) (result_file w)
          (outcome_expecting_failure w) (outcome_expectedFailure w) (old_success w).
Definition set_next_case (v : loc) (w : World) : World :=
  mkWorld (infos w) (next_info w) (cases w) v (lists w)
          (next_list w) (recorder w) (outcome_success w) (result_file w)
          (outcome_expecting_failure w) (outcome_expectedFailure w) (old_success w).
Definition set_lists (v : loc -> list loc) (w : World) : World :=
  mkWorld (infos w) (next_info w) (cases w) (next_case w) v
          (next_list w) (recorder w) (outcome_success w) (result_file w)
          (outcome_expecting_failure w) (outcome_expectedFailure w) (old_success w).
Definition set_next_list (v : loc) (w : World) : World :=
  mkWorld (infos w) (next_info w) (cases w) (next_case w) (lists w)
          v (recorder w) (outcome_success w) (result_file w)
          (outcome_expecting_failure w) (outcome_expectedFailure w) (old_success w).
Definition set_recorder (v : UTSGTestResult.t) (w : World) : World :=
  mkWorld (infos w) (next_info w) (cases w) (next_case w) (lists w)
          (next_list w) v (outcome_success w) (result_file w)
          (outcome_expecting_failure w) (outcome_expectedFailure w) (old_success w).
Definition set_outcome_success (v : bool) (w : World) : World :=
  mkWorld (infos w) (next_info w) (cases w) (next_case w) (lists w)
          (next_list w) (recorder w) v (result_file w)
          (outcome_expecting_failure w) (outcome_expectedFailure w) (old_success w).
Definition set_result_file (v : option Results.t) (w : World) : World :=
  mkWorld (infos w) (next_info w) (cases w) (next_case w) (lists w)
          (next_list w) (recorder w) (outcome_success w) v
          (outcome_expecting_failure w) (outcome_expectedFailure w) (old_success w).
Definition set_outcome_expecting_failure (v : bool) (w : World) : World :=
  mkWorld (infos w) (next_info w) (cases w) (next_case w) (lists w)
          (next_list w) (recorder w) (outcome_success w) (result_file w)
          v (outcome_expectedFailure w) (old_success w).
Definition set_outcome_expectedFailure (v : option SysExceptionType) (w : World) : World :=
  mkWorld (infos w) (next_info w) (cases w) (next_case w) (lists w)
          (next_list w) (recorder w) (outcome_success w) (result_file w)
          (outcome_expecting_failure w) v (old_success w).
Definition set_old_success (v : loc -> bool) (w : World) : World :=
  mkWorld (infos w) (next_info w) (cases w) (next_case w) (lists w)
          (next_list w) (recorder w) (outcome_success w) (result_file w)
          (outcome_expecting_failure w) (outcome_expectedFailure w) v.

(** ** The monad of methods: state and exceptions *)

Inductive outcome (A : Type) : Type :=
| Return (a : A)
| Raise (e : exn).
Arguments Return {A} a.
Arguments Raise {A} e.

Definition M (A : Type) : Type := World -> outcome A * World.

Definition ret {A : Type} (a : A) : M A := fun w => (Return a, w).

Definition raise {A : Type} (e : exn) : M A := fun w => (Raise e, w).

Definition bind {A B : Type} (m : M A) (k : A -> M B) : M B :=
  fun w =>
    match m w with
    | (Return a, w') => k a w'
    | (Raise e, w') => (Raise e, w')
    end.

Notation "x <- c1 ;; c2" := (bind c1 (fun x => c2))
  (at level 100, c1 at next level, right associativity).
Notation "c1 ;; c2" := (bind c1 (fun _ => c2))
  (at level 100, right associativity).

(** [try: ... except Exception as e: ...], with the handler left to the
    caller. *)
Definition try {A : Type} (m : M A) : M (outcome A) :=
  fun w => (Return (fst (m w)), snd (m w)).

Definition get : M World := fun w => (Return w, w).
Definition modify (f : World -> World) : M unit := fun w => (Return tt, f w).

(** [for x in l: body x] *)
Fixpoint for_each {A : Type} (body : A -> M unit) (l : list A) : M unit :=
  match l with
  | [] => ret tt
  | x :: l' => body x ;; for_each body l'
  end.

Definition read_info (l : loc) : M UTSGTestCaseInfo.t :=
  fun w => (Return (infos w l), w).
Definition modify_info (l : loc) (f : UTSGTestCaseInfo.t -> UTSGTestCaseInfo.t) : M unit :=
  modify (fun w => set_infos (upd (infos w) l (f (infos w l))) w).
Definition alloc_info (i : UTSGTestCaseInfo.t) : M loc :=
  fun w => (Return (next_info w),
            set_next_info (S (next_info w)) (set_infos (upd (infos w) (next_info w) i) w)).

Definition read_case (l : loc) : M UTSGTestCase.t :=
  fun w => (Return (cases w l), w).
Definition modify_case (l : loc) (f : UTSGTestCase.t -> UTSGTestCase.t) : M unit :=
  modify (fun w => set_cases (upd (cases w) l (f (cases w l))) w).
Definition alloc_case (c : UTSGTestCase.t) : M loc :=
  fun w => (Return (next_case w),
            set_next_case (S (next_case w)) (set_cases (upd (cases w) (next_case w) c) w)).

Definition read_list (l : loc) : M (list loc) :=
  fun w => (Return (lists w l), w).
(** [l.append(x)] and [l.extend(xs)] mutate the list object at [l]. *)
Definition list_append (l : loc) (x : loc) : M unit :=
  modify (fun w => set_lists (upd (lists w) l (lists w l ++ [x])) w).
Definition list_extend (l : loc) (xs : list loc) : M unit :=
  modify (fun w => set_lists (upd (lists w) l (lists w l ++ xs)) w).
Definition alloc_list (xs : list loc) : M loc :=
  fun w => (Return (next_list w),
            set_next_list (S (next_list w)) (set_lists (upd (lists w) (next_list w) xs) w)).

Definition self : M UTSGTestResult.t := fun w => (Return (recorder w), w).
Definition modify_self (f : UTSGTestResult.t -> UTSGTestResult.t) : M unit :=
  modify (fun w => set_recorder (f (recorder w)) w).
Definition modify_results (f : Results.t -> Results.t) : M unit :=
  modify_self (fun r => UTSGTestResult.set_utsg_results (f (UTSGTestResult.utsg_results r)) r).

(** ** utsg_test_result.py: UTSGRunSummary *)

(** One iteration of the loop of [__post_init__].  Adding [test.points] when
    it is [None] raises [TypeError]. *)
Definition __post_init___step (acc : UTSGRunSummary.t) (test : loc) : M UTSGRunSummary.t :=
  i <- read_info test ;;
  let st := UTSGTestCaseInfo._status i in
  let completed := orb (UTSGTestStatus_eqb st PASSED) (UTSGTestStatus_eqb st FAILED) in
  let ran := orb completed (UTSGTestStatus_eqb st CRASHED) in
  let available := S (UTSGRunSummary.num_tests_available acc) in
  let points_available :=
    (UTSGRunSummary.points_available acc + UTSGTestCaseInfo.max_points i)%Q in
  let num_ran :=
    if ran then S (UTSGRunSummary.num_tests_ran acc)
    else UTSGRunSummary.num_tests_ran acc in
  points_earned <-
    (if completed then
       match UTSGTestCaseInfo.points i with
       | Some p => ret (UTSGRunSummary.points_earned acc + p)%Q
       | None => raise (TypeError "unsupported operand type(s) for +=: 'float' and 'NoneType'")
       end
     else ret (UTSGRunSummary.points_earned acc)) ;;
  let passed :=
    if UTSGTestStatus_eqb st PASSED then S (UTSGRunSummary.num_tests_passed acc)
    else UTSGRunSummary.num_tests_passed acc in
  let failed :=
    if UTSGTestStatus_eqb st PASSED then UTSGRunSummary.num_tests_failed acc
    else if UTSGTestStatus_eqb st FAILED then S (UTSGRunSummary.num_tests_failed acc)
    else UTSGRunSummary.num_tests_failed acc in
  ret (UTSGRunSummary.mk (UTSGRunSummary.tests acc) available num_ran passed
         failed points_available points_earned).

Fixpoint __post_init___loop (acc : UTSGRunSummary.t) (ts : list loc) : M UTSGRunSummary.t :=
  match ts with
  | [] => ret acc
  | test :: ts' =>
      acc' <- __post_init___step acc test ;;
      __post_init___loop acc' ts'
  end.

Definition __post_init__ (this : UTSGRunSummary.t) : M UTSGRunSummary.t :=
  ts <- read_list (UTSGRunSummary.tests this) ;;
  __post_init___loop this ts.

(** [UTSGRunSummary(tests)]: the dataclass stores the list it is given (no
    copy), sets the counters to zero and runs [__post_init__]. *)
Definition UTSGRunSummary_new (tests : loc) : M UTSGRunSummary.t :=
  __post_init__ (UTSGRunSummary.mk tests 0 0 0 0 0 0).

(** [__add__]: [copy.copy(self)] is a shallow copy, so [total.tests] is the
    list object of [self.tests], and [extend] mutates that object. *)
Definition __add__ (this other : UTSGRunSummary.t) : M UTSGRunSummary.t :=
  let total := this in
  other_tests <- read_list (UTSGRunSummary.tests other) ;;
  list_extend (UTSGRunSummary.tests total) other_tests ;;
  ret (UTSGRunSummary.mk
         (UTSGRunSummary.tests total)
         (UTSGRunSummary.num_tests_available total + UTSGRunSummary.num_tests_available other)
         (UTSGRunSummary.num_tests_ran total + UTSGRunSummary.num_tests_ran other)
         (UTSGRunSummary.num_tests_passed total + UTSGRunSummary.num_tests_passed other)
         (UTSGRunSummary.num_tests_failed total + UTSGRunSummary.num_tests_failed other)
         (UTSGRunSummary.points_available total + UTSGRunSummary.points_available other)%Q
         (UTSGRunSummary.points_earned total + UTSGRunSummary.points_earned other)%Q).

(** ** utsg_test_result.py: UTSGTestResult *)

Section Recorder.

(** Python's formatting of a float inside an f-string, and the rendering of
    the packaged template [final_results.jinja.txt] (which may read any
    object that its arguments reach). *)
Variable float_repr : Q -> string.
Variable final_results_template :
  World -> UTSGRunSummary.t -> UTSGRunSummary.t -> UTSGRunSummary.t -> Q -> string.

(** [__init__] *)
Definition UTSGTestResult_init : M unit :=
  visible <- alloc_list [] ;;
  hidden <- alloc_list [] ;;
  excluded <- alloc_list [] ;;
  modify (set_recorder
            (UTSGTestResult.mk Results.empty 0 1 visible hidden excluded
               false false false false [])).

(** The properties. *)
Definition set_utsg_score_floor (score_floor : Q) : M unit :=
  let set_message :=
    "Attempted to set score floor to " +:+ float_repr score_floor +:+ "." +:+ nl in
  if Qlt_bool score_floor 0 then
    raise (UngradableError (set_message +:+ "The score floor cannot be set below 0.0"))
  else if Qlt_bool 1 score_floor then
    raise (UngradableError (set_message +:+ "The score floor cannot be set above 1.0"))
  else modify_self (UTSGTestResult.set__utsg_score_floor score_floor).

Definition set_utsg_score_ceiling (score_ceiling : Q) : M unit :=
  let set_message :=
    "Attempted to set score floor to " +:+ float_repr score_ceiling +:+ "." +:+ nl in
  if Qlt_bool score_ceiling 0 then
    raise (UngradableError (set_message +:+ "The score floor cannot be set below 0.0"))
  else if Qlt_bool 1 score_ceiling then
    raise (UngradableError (set_message +:+ "The score floor cannot be set above 1.0"))
  else modify_self (UTSGTestResult.set__utsg_score_ceiling score_ceiling).

Definition set_gradable (new_value : bool) : M unit :=
  modify_results (Results.set_gradable new_value).

Definition set_images (new_value : list PrairieLearnImage) : M unit :=
  modify_results (Results.set_images new_value).

Definition get_message : M (option string) :=
  r <- self ;; ret (Results.message (UTSGTestResult.utsg_results r)).

Definition set_message (new_value : option string) : M unit :=
  match new_value with
  | Some v => modify_results (Results.set_message v)
  | None => ret tt
  end.

Definition get_output : M (option string) :=
  r <- self ;; ret (Results.output (UTSGTestResult.utsg_results r)).

Definition set_output (new_value : option string) : M unit :=
  match new_value with
  | Some v => modify_results (Results.set_output v)
  | None => ret tt
  end.

Definition get_score : M Q :=
  r <- self ;;
  match Results.score (UTSGTestResult.utsg_results r) with
  | Some s => ret s
  | None => modify_results (Results.set_score 0) ;; ret 0%Q
  end.

Definition set_score (new_value : Q) : M unit :=
  modify_results (Results.set_score new_value).

Definition set_recorded_tests (new_value : list PrairieLearnTestCaseJsonDict.t) : M unit :=
  modify_results (Results.set_tests new_value).

(** [unittest.TestResult.stop] *)
Definition stop : M unit := modify_self (UTSGTestResult.set_shouldStop true).

(** The decorator [failfast] of [unittest.result], which wraps the
    [addError], [addFailure] and [addUnexpectedSuccess] of the base class;
    [addSubTest] of the base class does the same for a failed sub-test.
    What these methods add to the lists [errors], [failures] and
    [unexpectedSuccesses] is only printed. *)
Definition super_failfast : M unit :=
  r <- self ;;
  if UTSGTestResult.failfast r then stop else ret tt.

(** [unittest.TestResult.addSkip], which the recorder inherits. *)
Definition addSkip (reason : string) : M unit :=
  modify_self (fun r => UTSGTestResult.set_skipped (UTSGTestResult.skipped r ++ [reason]) r).

Definition _log_test_result (test : loc) : M unit :=
  i <- read_info test ;;
  r <- self ;;
  if negb (UTSGTestCaseInfo.include_in_results i) then
    list_append (UTSGTestResult.excluded_tests_info r) test
  else if UTSGTestCaseInfo.hidden i then
    list_append (UTSGTestResult.hidden_tests_info r) test
  else
    list_append (UTSGTestResult.visible_tests_info r) test.

Definition startTestRun : M unit :=
  modify_self (UTSGTestResult.set_utsg_results
                 (Results.mk (Some true) (Some 0%Q) (Some []) None None None)).

Definition _log_failure (test : loc) : M unit :=
  modify_info test (UTSGTestCaseInfo.set__status FAILED) ;;
  i <- read_info test ;;
  (match UTSGTestCaseInfo.points i with
   | None =>
       modify_info test
         (UTSGTestCaseInfo.set_points (Some (- UTSGTestCaseInfo.points_lost_on_failure i)%Q))
   | Some _ => ret tt
   end) ;;
  i <- read_info test ;;
  (match UTSGTestCaseInfo.message i with
   | None =>
       modify_info test
         (UTSGTestCaseInfo.set_message (Some ("Failed " +:+ UTSGTestCaseInfo.name i)))
   | Some _ => ret tt
   end) ;;
  _log_test_result test.

Definition _log_success (test : loc) : M unit :=
  modify_info test (UTSGTestCaseInfo.set__status PASSED) ;;
  i <- read_info test ;;
  (match UTSGTestCaseInfo.points i with
   | None =>
       modify_info test (UTSGTestCaseInfo.set_points (Some (UTSGTestCaseInfo.max_points i)))
   | Some _ => ret tt
   end) ;;
  i <- read_info test ;;
  (match UTSGTestCaseInfo.message i with
   | None =>
       modify_info test
         (UTSGTestCaseInfo.set_message (Some ("Passed " +:+ UTSGTestCaseInfo.name i)))
   | Some _ => ret tt
   end) ;;
  _log_test_result test.

(** Lines 210-212 of [stopTestRun]: the two summaries are built on the
    recorder's own partition lists, then added. *)
Definition summarize_partitions : M (UTSGRunSummary.t * UTSGRunSummary.t * UTSGRunSummary.t) :=
  r <- self ;;
  hidden_results <- UTSGRunSummary_new (UTSGTestResult.hidden_tests_info r) ;;
  visible_results <- UTSGRunSummary_new (UTSGTestResult.visible_tests_info r) ;;
  total_results <- __add__ hidden_results visible_results ;;
  ret (hidden_results, visible_results, total_results).

(** Lines 215-220 of [stopTestRun]. *)
Definition score_run (total_results : UTSGRunSummary.t) : M unit :=
  r <- self ;;
  if negb (UTSGTestResult.scored r) then
    set_score (if Qlt_bool 0 (UTSGRunSummary.points_available total_results)
               then (UTSGRunSummary.points_earned total_results
                     / UTSGRunSummary.points_available total_results)%Q
               else 0%Q) ;;
    s <- get_score ;;
    set_score (py_max (UTSGTestResult._utsg_score_floor r) s) ;;
    s <- get_score ;;
    set_score (py_min (UTSGTestResult._utsg_score_ceiling r) s) ;;
    modify_self (UTSGTestResult.set_scored true)
  else ret tt.

(** [json.dump(self.utsg_results, result_json)] *)
Definition dump_results : M unit :=
  r <- self ;;
  modify (set_result_file (Some (UTSGTestResult.utsg_results r))).

Definition stopTestRun : M unit :=
  r <- self ;;
  if Qlt_bool (UTSGTestResult._utsg_score_ceiling r) (UTSGTestResult._utsg_score_floor r) then
    raise (UngradableError
             ("score floor set above score score ceiling. "
              +:+ float_repr (UTSGTestResult._utsg_score_floor r) +:+ " > "
              +:+ float_repr (UTSGTestResult._utsg_score_ceiling r)))
  else
    summaries <- summarize_partitions ;;
    let '(hidden_results, visible_results, total_results) := summaries in
    score_run total_results ;;
    visible <- read_list (UTSGTestResult.visible_tests_info r) ;;
    w <- get ;;
    set_recorded_tests
      (map (fun test => UTSGTestCaseInfo.as_prairielearn_json_dict (infos w test)) visible) ;;
    s <- get_score ;;
    w <- get ;;
    let final_results :=
      final_results_template w hidden_results visible_results total_results (s * 100)%Q in
    m <- get_message ;;
    set_message (Some (match m with
                       | Some m => final_results +:+ m
                       | None => EmptyString
                       end)) ;;
    dump_results.

Definition startTest (test : loc) : M unit :=
  c <- read_case test ;;
  set_utsg_score_floor (UTSGTestCase.utsg_score_floor c) ;;
  set_utsg_score_ceiling (UTSGTestCase.utsg_score_ceiling c) ;;
  modify_info (UTSGTestCase.utsg_test_case_info c) (UTSGTestCaseInfo.set__status RUNNING).

(** The body of the loop of [stopTest] (the [print] calls are left out). *)
Definition stopTest_subtest (utsg_subtest : UTSGSubTest.t) : M unit :=
  i <- read_info (UTSGSubTest.utsg_test_case_info utsg_subtest) ;;
  match UTSGTestCaseInfo._status i with
  | PASSED => _log_success (UTSGSubTest.utsg_test_case_info utsg_subtest)
  | FAILED | CRASHED => _log_failure (UTSGSubTest.utsg_test_case_info utsg_subtest)
  | _ => ret tt
  end.

Definition stopTest (test : loc) : M unit :=
  c <- read_case test ;;
  (if truthy_list (UTSGTestCase.images c) then set_images (UTSGTestCase.images c)
   else ret tt) ;;
  (if truthy_str (UTSGTestCase.message c) then set_message (UTSGTestCase.message c)
   else ret tt) ;;
  (if truthy_str (UTSGTestCase.output c) then set_output (UTSGTestCase.output c)
   else ret tt) ;;
  for_each stopTest_subtest (UTSGTestCase.utsg_subtests c) ;;
  i <- read_info (UTSGTestCase.utsg_test_case_info c) ;;
  if UTSGTestStatus_eqb (UTSGTestCaseInfo._status i) RUNNING then
    _log_success (UTSGTestCase.utsg_test_case_info c)
  else ret tt.

Definition crash_template (name reason extra_info : string) : string :=
  name +:+ " CRASHED for the following reason" +:+ nl +:+ reason +:+ extra_info.

Definition original_output (out : option string) : string :=
  match out with
  | Some o => nl +:+ nl +:+ "--------Original Output--------" +:+ nl +:+ o
  | None => EmptyString
  end.

(** The loop of [addError] that looks for the first crashed sub-test. *)
Fixpoint first_crashed (subtests : list UTSGSubTest.t) (crashed_test_info : loc) : M loc :=
  match subtests with
  | [] => ret crashed_test_info
  | subtest :: rest =>
      i <- read_info (UTSGSubTest.utsg_test_case_info subtest) ;;
      if UTSGTestStatus_eqb (UTSGTestCaseInfo._status i) CRASHED
      then ret (UTSGSubTest.utsg_test_case_info subtest)
      else first_crashed rest crashed_test_info
  end.

(** [test] is [None] for an object without [utsg_test_case_info] (an error
    in [setUpClass]). *)
Definition addError (test : option loc) (err : SysExceptionType) : M unit :=
  super_failfast ;;
  set_gradable false ;;
  set_score 0 ;;
  modify_self (UTSGTestResult.set_scored true) ;;
  let reason :=
    match exception err with
    | UngradableError message => message
    | e => "An error of type " +:+ exn_type e +:+ " occurred when testing." +:+ nl
           +:+ "Exception Value: " +:+ exn_str e +:+ nl
           +:+ "Trace Back: " +:+ tb err +:+ nl
    end in
  (match test with
   | Some test =>
       c <- read_case test ;;
       modify_info (UTSGTestCase.utsg_test_case_info c) (UTSGTestCaseInfo.set__status CRASHED) ;;
       crashed_test_info <-
         first_crashed (UTSGTestCase.utsg_subtests c) (UTSGTestCase.utsg_test_case_info c) ;;
       i <- read_info crashed_test_info ;;
       let extra_info :=
         if truthy_str (UTSGTestCaseInfo.output i)
         then original_output (UTSGTestCaseInfo.output i) else EmptyString in
       modify_info crashed_test_info
         (UTSGTestCaseInfo.set_output (Some (crash_template "This test" reason extra_info))) ;;
       out <- get_output ;;
       let extra_info :=
         if truthy_str out then original_output out else EmptyString in
       set_output (Some (crash_template (UTSGTestCaseInfo.name i) reason extra_info))
   | None =>
       out <- get_output ;;
       let extra_info :=
         if truthy_str out then original_output out else EmptyString in
       set_output (Some (crash_template EmptyString reason extra_info))
   end) ;;
  stop.

Definition addFailure (test : loc) (err : SysExceptionType) : M unit :=
  super_failfast ;;
  c <- read_case test ;;
  _log_failure (UTSGTestCase.utsg_test_case_info c).

Definition addSuccess (test : loc) : M unit :=
  c <- read_case test ;;
  _log_success (UTSGTestCase.utsg_test_case_info c).

Definition addExpectedFailure (test : loc) (err : SysExceptionType) : M unit :=
  ret tt.

Definition addUnexpectedSuccess (test : loc) : M unit :=
  set_gradable false ;;
  c <- read_case test ;;
  i <- read_info (UTSGTestCase.utsg_test_case_info c) ;;
  set_message (Some (UTSGTestCaseInfo.name i
                     +:+ " passed when it was marked as expecting to fail.")) ;;
  super_failfast ;;
  stop.

(** [test] is the parent test case of the unittest sub-test. *)
Definition addSubTest (test : loc) (err : option SysExceptionType) : M unit :=
  match err with
  | Some _ =>
      super_failfast ;;
      c <- read_case test ;;
      i <- read_info (UTSGTestCase.utsg_test_case_info c) ;;
      if negb (UTSGTestStatus_eqb (UTSGTestCaseInfo._status i) FAILED) then
        _log_failure (UTSGTestCase.utsg_test_case_info c)
      else ret tt
  | None => ret tt
  end.

(** ** utsg_testcase.py: UTSGTestCase and UTSGSubTest methods *)

(** [UTSGTestCase.__init__] *)
Definition UTSGTestCase_init (methodName : string) (description : option string)
    (max_points points_lost_on_failure : Q) (include_in_results hidden : bool) : M loc :=
  info <- alloc_info (UTSGTestCaseInfo.new methodName description max_points
                        points_lost_on_failure include_in_results hidden) ;;
  alloc_case (UTSGTestCase.mk 0 1 None None [] info []).

Definition add_graded_subTest (this : loc) (name description : option string)
    (max_points points_lost_on_failure : option Q) (include_in_results : bool)
    (hidden : option bool) (include_params_in_description : bool)
    (params : list (string * string)) : M UTSGSubTest.t :=
  c <- read_case this ;;
  parent <- read_info (UTSGTestCase.utsg_test_case_info c) ;;
  let subtest_test_case_info :=
    UTSGTestCaseInfo.new
      (match name with
       | Some n => n
       | None => UTSGTestCaseInfo.name parent +:+ " subtest "
                 +:+ pretty (S (length (UTSGTestCase.utsg_subtests c)))
       end)
      (match description with
       | Some d => Some d
       | None => UTSGTestCaseInfo.description parent
       end)
      (match max_points with
       | Some p => p
       | None => UTSGTestCaseInfo.max_points parent
       end)
      (match points_lost_on_failure with
       | Some p => p
       | None => UTSGTestCaseInfo.points_lost_on_failure parent
       end)
      include_in_results
      (match hidden with
       | Some h => h
       | None => UTSGTestCaseInfo.hidden parent
       end) in
  let subtest_test_case_info :=
    if include_params_in_description then
      let param_description :=
        String.concat ("  " +:+ nl)
          (map (fun p => fst p +:+ " = " +:+ snd p)
               (filter (fun p => fst p ≠ "msg") params)) in
      UTSGTestCaseInfo.set_description
        (Some (match UTSGTestCaseInfo.description subtest_test_case_info with
               | Some d => d
               | None => EmptyString
               end +:+ nl +:+ param_description))
        subtest_test_case_info
    else subtest_test_case_info in
  info <- alloc_info subtest_test_case_info ;;
  let subtest := UTSGSubTest.mk info this in
  modify_case this
    (fun c => UTSGTestCase.set_utsg_subtests (UTSGTestCase.utsg_subtests c ++ [subtest]) c) ;;
  ret subtest.

(** The context manager that [unittest.TestCase.subTest] returns is a
    generator around [_Outcome.testPartExecutor] (standard library).  A
    scope is used inside a running test method, where the test case holds
    its [_outcome] and the result supports sub-tests, and it is exited after
    it was entered, as [with] does.  [__enter__] runs the generator up to
    its [yield]: the executor saves [success] in [old_success] and sets
    it. *)
Definition subtest_context_manager___enter__ (this : UTSGSubTest.t) : M unit :=
  modify (fun w => set_old_success
                     (upd (old_success w) (UTSGSubTest.utsg_test_case_info this)
                        (outcome_success w)) w) ;;
  modify (set_outcome_success true).

(** [__exit__] resumes the generator.  First the executor: it re-raises a
    [KeyboardInterrupt], reports a [SkipTest] through [addSkip], drops a
    [_ShouldStop], and for any other exception either keeps it as the
    expected failure or reports it through [addSubTest]; without an
    exception it reports the success; its [finally] restores [success].
    Then [subTest]: it raises [_ShouldStop] after a failure under
    [failfast] and after an expected failure.  The value returned is that
    of [contextlib]: [False] without an exception or when the generator
    re-raised the exception it was given, [True] when the generator
    swallowed it; an exception that the generator raises itself leaves
    [__exit__]. *)
Definition subtest_context_manager___exit__ (this : UTSGSubTest.t)
    (err : option SysExceptionType) : M bool :=
  let parent_test_case := UTSGSubTest.parent_test_case this in
  let restore_success :=
    modify (fun w => set_outcome_success
                       (outcome_success w
                        && old_success w (UTSGSubTest.utsg_test_case_info this)) w) in
  let after_executor :=
    w <- get ;;
    if negb (outcome_success w) then
      r <- self ;;
      if UTSGTestResult.failfast r then raise _ShouldStop else ret tt
    else
      match outcome_expectedFailure w with
      | Some _ => raise _ShouldStop
      | None => ret tt
      end in
  match err with
  | None =>
      r <- try (w <- get ;;
                if outcome_success w then addSubTest parent_test_case None else ret tt) ;;
      restore_success ;;
      match r with
      | Raise e => raise e
      | Return _ => after_executor ;; ret false
      end
  | Some exc_info =>
      match exception exc_info with
      | KeyboardInterrupt => restore_success ;; ret false
      | value =>
          r <- try (match value with
                    | SkipTest reason =>
                        modify (set_outcome_success false) ;;
                        addSkip reason
                    | _ShouldStop => ret tt
                    | _ =>
                        w <- get ;;
                        if outcome_expecting_failure w then
                          modify (set_outcome_expectedFailure (Some exc_info))
                        else
                          modify (set_outcome_success false) ;;
                          addSubTest parent_test_case (Some exc_info)
                    end) ;;
          restore_success ;;
          match r with
          | Raise e => raise e
          | Return _ => after_executor ;; ret true
          end
      end
  end.

Definition __enter__ (this : UTSGSubTest.t) : M UTSGSubTest.t :=
  modify_info (UTSGSubTest.utsg_test_case_info this) (UTSGTestCaseInfo.set__status RUNNING) ;;
  subtest_context_manager___enter__ this ;;
  ret this.

Definition __exit__ (this : UTSGSubTest.t) (err : option SysExceptionType) : M bool :=
  suppress_exception <- subtest_context_manager___exit__ this err ;;
  match err with
  | None =>
      modify_info (UTSGSubTest.utsg_test_case_info this) (UTSGTestCaseInfo.set__status PASSED) ;;
      ret suppress_exception
  | Some e =>
      if is_AssertionError (exception e) then
        modify_info (UTSGSubTest.utsg_test_case_info this) (UTSGTestCaseInfo.set__status FAILED) ;;
        ret suppress_exception
      else
        modify_info (UTSGSubTest.utsg_test_case_info this) (UTSGTestCaseInfo.set__status CRASHED) ;;
        ret false
  end.

(** The traceback text is not part of an [exn]; a block that raises is
    reported with this one. *)
Variable format_tb : exn -> string.

(** [with subtest: block] *)
Definition with_ (subtest : UTSGSubTest.t) (block : M unit) : M unit :=
  __enter__ subtest ;;
  r <- try block ;;
  match r with
  | Return _ => __exit__ subtest None ;; ret tt
  | Raise e =>
      suppress <- __exit__ subtest (Some {| exception := e; tb := format_tb e |}) ;;
      if suppress then ret tt else raise e
  end.

(** [unittest.case._addError]: [failureException] is [AssertionError]. *)
Definition _addError (test : loc) (exc_info : SysExceptionType) : M unit :=
  if is_AssertionError (exception exc_info) then addFailure test exc_info
  else addError (Some test) exc_info.

(** [with outcome.testPartExecutor(test_case): body] of [TestCase.run]
    (standard library, [subTest=False]).  The bare [except] catches every
    exception that the clauses before it leave, [SystemExit] too. *)
Definition testPartExecutor (test_case : loc) (body : M unit) : M unit :=
  w <- get ;;
  let old_success := outcome_success w in
  modify (set_outcome_success true) ;;
  r <- try (r <- try body ;;
            match r with
            | Return _ => ret tt
            | Raise KeyboardInterrupt => raise KeyboardInterrupt
            | Raise (SkipTest reason) =>
                modify (set_outcome_success false) ;;
                addSkip reason
            | Raise _ShouldStop => ret tt
            | Raise e =>
                let exc_info := {| exception := e; tb := format_tb e |} in
                w <- get ;;
                if outcome_expecting_failure w then
                  modify (set_outcome_expectedFailure (Some exc_info))
                else
                  modify (set_outcome_success false) ;;
                  _addError test_case exc_info
            end) ;;
  modify (fun w => set_outcome_success (outcome_success w && old_success) w) ;;
  match r with
  | Return _ => ret tt
  | Raise e => raise e
  end.

(** [unittest.TestCase.run] (standard library) for a test case that is not
    skipped and has the [setUp] and [tearDown] of [unittest.TestCase], which
    do nothing, and no clean-ups; [expecting_failure] is set by the
    [expectedFailure] decorator.  [TestCase_run_method] is the part between
    [startTest] and [stopTest]: a new [_Outcome], the three executors, the
    report of the outcome, and the [finally] that clears the expected
    failure.  [stopTest] sits in the outer [finally]. *)
Definition TestCase_run_method (expecting_failure : bool) (test : loc)
    (testMethod : loc -> M unit) : M unit :=
  modify (set_outcome_expecting_failure false) ;;
  modify (set_outcome_success true) ;;
  modify (set_outcome_expectedFailure None) ;;
  r <- try (testPartExecutor test (ret tt) ;;
            w <- get ;;
            (if outcome_success w then
               modify (set_outcome_expecting_failure expecting_failure) ;;
               testPartExecutor test (testMethod test) ;;
               modify (set_outcome_expecting_failure false) ;;
               testPartExecutor test (ret tt)
             else ret tt) ;;
            w <- get ;;
            if outcome_success w then
              if expecting_failure then
                match outcome_expectedFailure w with
                | Some exc_info => addExpectedFailure test exc_info
                | None => addUnexpectedSuccess test
                end
              else addSuccess test
            else ret tt) ;;
  modify (set_outcome_expectedFailure None) ;;
  match r with
  | Return _ => ret tt
  | Raise e => raise e
  end.

Definition TestCase_run (expecting_failure : bool) (test : loc)
    (testMethod : loc -> M unit) : M unit :=
  startTest test ;;
  r <- try (TestCase_run_method expecting_failure test testMethod) ;;
  stopTest test ;;
  match r with
  | Return _ => ret tt
  | Raise e => raise e
  end.

(** [unittest.TestSuite.run]: the suite stops before the next test once
    [shouldStop] is set. *)
Fixpoint TestSuite_run (tests : list (M unit)) : M unit :=
  match tests with
  | [] => ret tt
  | test :: rest =>
      r <- self ;;
      if UTSGTestResult.shouldStop r then ret tt
      else test ;; TestSuite_run rest
  end.

(** ** run_tests.py *)

(** The [finally] of [run_tests] opens the result file for reading (and
    prints it): without a file this raises [FileNotFoundError]. *)
Definition print_result_file : M unit :=
  w <- get ;;
  match result_file w with
  | Some _ => ret tt
  | None =>
      raise (OtherException "<class 'FileNotFoundError'>"
               "[Errno 2] No such file or directory")
  end.

(** [tests] are the test cases that [discover] returns, each with its
    [__call__].  [except Exception] leaves a [BaseException] that is not an
    [Exception] alone; the [finally] runs in every case, and an exception
    that it raises replaces the one on its way.  Creating the results
    directory and opening the result file for writing are taken to succeed,
    as in [stopTestRun]. *)
Definition run_tests (tests : list (M unit)) : M unit :=
  UTSGTestResult_init ;;
  r <- try (r <- try (startTestRun ;; TestSuite_run tests ;; stopTestRun) ;;
            match r with
            | Return _ => ret tt
            | Raise (UngradableError message) =>
                set_output (Some message) ;;
                set_gradable false ;;
                set_score 0 ;;
                dump_results
            | Raise e =>
                if is_Exception e then
                  set_output (Some (format_tb e)) ;;
                  set_gradable false ;;
                  set_score 0 ;;
                  dump_results
                else raise e
            end) ;;
  print_result_file ;;
  match r with
  | Return _ => ret tt
  | Raise e => raise e
  end.

End Recorder.

(** ** utsg_decorators.py *)

Module utsg_decorators.
Definition UTSGDecoratorFactory (setter : UTSGTestCaseInfo.t -> UTSGTestCaseInfo.t)
    (test_fun : loc -> M unit) : loc -> M unit :=
  fun test_case =>
    c <- read_case test_case ;;
    modify_info (UTSGTestCase.utsg_test_case_info c) setter ;;
    test_fun test_case.

Definition name (v : string) := UTSGDecoratorFactory (UTSGTestCaseInfo.set_name v).
Definition description (v : option string) :=
  UTSGDecoratorFactory (UTSGTestCaseInfo.set_description v).
Definition max_points (v : Q) := UTSGDecoratorFactory (UTSGTestCaseInfo.set_max_points v).
Definition points_lost_on_failure (v : Q) :=
  UTSGDecoratorFactory (UTSGTestCaseInfo.set_points_lost_on_failure v).
Definition include_in_results (v : bool) :=
  UTSGDecoratorFactory (UTSGTestCaseInfo.set_include_in_results v).
Definition hidden (v : bool) := UTSGDecoratorFactory (UTSGTestCaseInfo.set_hidden v).
Definition message (v : option string) :=
  UTSGDecoratorFactory (UTSGTestCaseInfo.set_message v).
Definition output (v : option string) :=
  UTSGDecoratorFactory (UTSGTestCaseInfo.set_output v).
Definition images (v : list PrairieLearnImage) :=
  UTSGDecoratorFactory (UTSGTestCaseInfo.set_images v).
End utsg_decorators.

(** ** Runs *)

(** The store before any object is created. *)
Definition blank_world : World :=
  mkWorld (fun _ => UTSGTestCaseInfo.default) 0
          (fun _ => UTSGTestCase.default) 0
          (fun _ => []) 0
          (UTSGTestResult.mk Results.empty 0 1 0 0 0 false false false false [])
          true None false None (fun _ => true).



(** ** Reading a partition without running the loop *)

(** [PASSED] or [FAILED]: the statuses whose points [__post_init__] adds. *)
Definition completed (st : UTSGTestStatus) : bool :=
  orb (UTSGTestStatus_eqb st PASSED) (UTSGTestStatus_eqb st FAILED).

(** [PASSED], [FAILED] or [CRASHED]. *)
Definition terminal (st : UTSGTestStatus) : bool :=
  orb (completed st) (UTSGTestStatus_eqb st CRASHED).

(** Every completed outcome of the list has its points set, so that
    [__post_init__] does not raise [TypeError]. *)
Definition summable (w : World) (ts : list loc) : bool :=
  forallb (fun t =>
             implb (completed (UTSGTestCaseInfo._status (infos w t)))
                   (match UTSGTestCaseInfo.points (infos w t) with
                    | Some _ => true
                    | None => false
                    end)) ts.

Definition sum_max_points (w : World) (ts : list loc) : Q :=
  fold_right (fun t acc => (UTSGTestCaseInfo.max_points (infos w t) + acc)%Q) 0%Q ts.

Definition points_counted (i : UTSGTestCaseInfo.t) : Q :=
  if completed (UTSGTestCaseInfo._status i) then
    match UTSGTestCaseInfo.points i with
    | Some p => p
    | None => 0%Q
    end
  else 0%Q.

Definition sum_points_earned (w : World) (ts : list loc) : Q :=
  fold_right (fun t acc => (points_counted (infos w t) + acc)%Q) 0%Q ts.

(** The score that lines 216-219 of [stopTestRun] compute from the total. *)
Definition raw_score (total_results : UTSGRunSummary.t) : Q :=
  if Qlt_bool 0 (UTSGRunSummary.points_available total_results)
  then (UTSGRunSummary.points_earned total_results
        / UTSGRunSummary.points_available total_results)%Q
  else 0%Q.

(** The store after [hidden_results + visible_results] in [stopTestRun]:
    the recorder's hidden list has been extended with the visible one. *)
Definition after_add (w : World) : World :=
  set_lists (upd (lists w) (UTSGTestResult.hidden_tests_info (recorder w))
               (lists w (UTSGTestResult.hidden_tests_info (recorder w))
                ++ lists w (UTSGTestResult.visible_tests_info (recorder w)))) w.

(** What the [score] property reads: the stored score, 0.0 when the key is
    absent. *)
Definition stored_score (w : World) : Q :=
  match Results.score (UTSGTestResult.utsg_results (recorder w)) with
  | Some s => s
  | None => 0%Q
  end.

(** The score that [stopTestRun] leaves in [utsg_results]: the stored one
    when the run is already scored, the clamped ratio otherwise. *)
Definition final_score (w : World) (total_results : UTSGRunSummary.t) : Q :=
  let r := recorder w in
  if UTSGTestResult.scored r then stored_score w
  else clamp (UTSGTestResult._utsg_score_floor r) (UTSGTestResult._utsg_score_ceiling r)
         (raw_score total_results).

(** ** Events *)

(** What the unittest driver and the test code call on the recorder, on
    test cases and on sub-test scopes. *)
Inductive event : Type :=
| ev_startTestRun
| ev_stopTestRun
| ev_startTest (test : loc)
| ev_stopTest (test : loc)
| ev_addError (test : option loc) (err : SysExceptionType)
| ev_addFailure (test : loc) (err : SysExceptionType)
| ev_addSuccess (test : loc)
| ev_addExpectedFailure (test : loc) (err : SysExceptionType)
| ev_addUnexpectedSuccess (test : loc)
| ev_addSubTest (test : loc) (err : option SysExceptionType)
| ev_UTSGTestCase (methodName : string) (description : option string)
    (max_points points_lost_on_failure : Q) (include_in_results hidden : bool)
| ev_add_graded_subTest (this : loc) (name description : option string)
    (max_points points_lost_on_failure : option Q) (include_in_results : bool)
    (hidden : option bool) (include_params_in_description : bool)
    (params : list (string * string))
| ev___enter__ (subtest : UTSGSubTest.t)
| ev___exit__ (subtest : UTSGSubTest.t) (err : option SysExceptionType).

Section Events.

Variable float_repr : Q -> string.
Variable final_results_template :
  World -> UTSGRunSummary.t -> UTSGRunSummary.t -> UTSGRunSummary.t -> Q -> string.

Definition deliver (ev : event) : M unit :=
  match ev with
  | ev_startTestRun => startTestRun
  | ev_stopTestRun => stopTestRun float_repr final_results_template
  | ev_startTest test => startTest float_repr test
  | ev_stopTest test => stopTest test
  | ev_addError test err => addError test err
  | ev_addFailure test err => addFailure test err
  | ev_addSuccess test => addSuccess test
  | ev_addExpectedFailure test err => addExpectedFailure test err
  | ev_addUnexpectedSuccess test => addUnexpectedSuccess test
  | ev_addSubTest test err => addSubTest test err
  | ev_UTSGTestCase n d mp pl inc h => UTSGTestCase_init n d mp pl inc h ;; ret tt
  | ev_add_graded_subTest this n d mp pl inc h ip ps =>
      add_graded_subTest this n d mp pl inc h ip ps ;; ret tt
  | ev___enter__ s => __enter__ s ;; ret tt
  | ev___exit__ s err => __exit__ s err ;; ret tt
  end.

(** The store after a sequence of events; an event that raises leaves the
    store as it was when the exception was raised. *)
Fixpoint deliver_all (evs : list event) (w : World) : World :=
  match evs with
  | [] => w
  | ev :: evs' => deliver_all evs' (snd (deliver ev w))
  end.

(** [ev] starts the outcome at address [l]: [startTest] of its test case or
    [__enter__] of its scope. *)
Definition starts (w : World) (ev : event) (l : loc) : bool :=
  match ev with
  | ev_startTest test => Nat.eqb (UTSGTestCase.utsg_test_case_info (cases w test)) l
  | ev___enter__ s => Nat.eqb (UTSGSubTest.utsg_test_case_info s) l
  | _ => false
  end.

Fixpoint never_restarted (l : loc) (evs : list event) (w : World) : bool :=
  match evs with
  | [] => true
  | ev :: evs' => negb (starts w ev l) && never_restarted l evs' (snd (deliver ev w))
  end.

End Events.

Definition is_startTestRun (ev : event) : bool :=
  match ev with
  | ev_startTestRun => true
  | _ => false
  end.

(** ** Predicates on the store *)

(** A computation keeps a predicate on the store, whether it returns or
    raises. *)
Definition preserves {A : Type} (P : World -> Prop) (m : M A) : Prop :=
  forall w, P w -> P (snd (m w)).

(** The outcome at [l] exists and its status is terminal. *)
Definition kept (l : loc) (w : World) : Prop :=
  l < next_info w /\ terminal (UTSGTestCaseInfo._status (infos w l)) = true.

(** The recorder after [addError]. *)
Definition crashed_state (w : World) : Prop :=
  UTSGTestResult.scored (recorder w) = true
  /\ Results.score (UTSGTestResult.utsg_results (recorder w)) = Some 0%Q
  /\ Results.gradable (UTSGTestResult.utsg_results (recorder w)) = Some false
  /\ UTSGTestResult.shouldStop (recorder w) = true.

(** ** More runs *)

(** A test method with one sub-test whose block raises an exception that is
    not an [AssertionError]. *)
Definition crashing_subtest (format_tb : exn -> string) (this : loc) : M unit :=
  s <- add_graded_subTest this None None None None true None true [] ;;
  with_ format_tb s (raise (OtherException "<class 'ValueError'>" "bad value")).

(** The run of one test case with [crashing_subtest], up to the moment
    before [stopTest]. *)
Definition run_crashing_subtest (float_repr : Q -> string) (format_tb : exn -> string) : M unit :=
  UTSGTestResult_init ;;
  T <- UTSGTestCase_init "T" None 1 0 true false ;;
  startTestRun ;;
  startTest float_repr T ;;
  try (TestCase_run_method format_tb false T (crashing_subtest format_tb)) ;;
  ret tt.

(** The run of one test case worth one point whose method does nothing;
    [expecting_failure] says whether it carries [expectedFailure], and
    [floor] and [ceiling] are the class attributes [utsg_score_floor] and
    [utsg_score_ceiling] of the test case.  The run stops before
    [stopTestRun]. *)
Definition run_one_test (float_repr : Q -> string) (format_tb : exn -> string)
    (expecting_failure : bool) (floor ceiling : Q) : M unit :=
  UTSGTestResult_init ;;
  T <- UTSGTestCase_init "test_one" None 1 0 true false ;;
  modify_case T (UTSGTestCase.set_utsg_score_floor floor) ;;
  modify_case T (UTSGTestCase.set_utsg_score_ceiling ceiling) ;;
  startTestRun ;;
  TestSuite_run [TestCase_run float_repr format_tb expecting_failure T (fun _ => ret tt)].

(** Stand-ins for the three texts that the store does not determine. *)
Definition no_repr (q : Q) : string := EmptyString.
Definition no_tb (e : exn) : string := EmptyString.
Definition no_template (w : World) (h v t : UTSGRunSummary.t) (s : Q) : string :=
  EmptyString.

Definition crashed_world : World := snd (run_crashing_subtest no_repr no_tb blank_world).

Definition passed_world : World := snd (run_one_test no_repr no_tb false 0 1 blank_world).

Definition unexpected_success_world : World :=
  snd (run_one_test no_repr no_tb true 0 1 blank_world).

Definition halves_world : World :=
  snd (run_one_test no_repr no_tb false (1 # 2) (1 # 2) blank_world).

Definition crossed_bounds_world : World :=
  snd (run_one_test no_repr no_tb false (3 # 5) (2 # 5) blank_world).

(** ** The claims as the specification words them, where the code differs *)


(** A terminal status is never replaced by another status. *)
Definition status_is_final float_repr final_results_template : Prop :=
  forall (evs : list event) (w : World) (l : loc),
    terminal (UTSGTestCaseInfo._status (infos w l)) = true ->
    UTSGTestCaseInfo._status (infos (deliver_all float_repr final_results_template evs w) l)
    = UTSGTestCaseInfo._status (infos w l).


(** [__add__] returns the sums and leaves the store as it was. *)
Definition add_is_pure (w : World) (a b : UTSGRunSummary.t) : Prop :=
  exists total,
    __add__ a b w = (Return total, w)
    /\ UTSGRunSummary.points_available total
       = (UTSGRunSummary.points_available a + UTSGRunSummary.points_available b)%Q
    /\ UTSGRunSummary.points_earned total
       = (UTSGRunSummary.points_earned a + UTSGRunSummary.points_earned b)%Q.

(** Two summaries over two one-element lists. *)
Definition two_lists : World :=
  set_next_list 2
    (set_lists (upd (upd (lists blank_world) 0 [0]) 1 [1])
       (set_next_info 2 blank_world)).

(** The partition list that [_log_test_result] appends [test] to. *)
Definition partition_of (w : World) (test : loc) : loc :=
  if negb (UTSGTestCaseInfo.include_in_results (infos w test)) then
    UTSGTestResult.excluded_tests_info (recorder w)
  else if UTSGTestCaseInfo.hidden (infos w test) then
    UTSGTestResult.hidden_tests_info (recorder w)
  else UTSGTestResult.visible_tests_info (recorder w).

(** A computation that returns from every store. *)
Definition returns {A : Type} (m : M A) : Prop :=
  forall w, exists a w', m w = (Return a, w').

Definition value_error : SysExceptionType :=
  {| exception := OtherException "<class 'ValueError'>" "bad value"; tb := EmptyString |}.

(** The run of three test cases whose methods do nothing: one visible and
    worth 1 point, one hidden and worth 2, one excluded and worth 4.  The
    run stops before [stopTestRun]. *)
Definition run_three_tests (float_repr : Q -> string) (format_tb : exn -> string) : M unit :=
  UTSGTestResult_init ;;
  V <- UTSGTestCase_init "test_visible" None 1 0 true false ;;
  H <- UTSGTestCase_init "test_hidden" None 2 0 true true ;;
  X <- UTSGTestCase_init "test_excluded" None 4 0 false false ;;
  startTestRun ;;
  TestSuite_run
    [TestCase_run float_repr format_tb false V (fun _ => ret tt);
     TestCase_run float_repr format_tb false H (fun _ => ret tt);
     TestCase_run float_repr format_tb false X (fun _ => ret tt)].

Definition three_tests_world : World := snd (run_three_tests no_repr no_tb blank_world).

(** The store with the list object at [l] replaced by [xs]. *)
Definition with_list (l : loc) (xs : list loc) (w : World) : World :=
  set_lists (upd (lists w) l xs) w.

(** The summary that [__add__] returns. *)
Definition sum_summaries (a b : UTSGRunSummary.t) : UTSGRunSummary.t :=
  UTSGRunSummary.mk
    (UTSGRunSummary.tests a)
    (UTSGRunSummary.num_tests_available a + UTSGRunSummary.num_tests_available b)
    (UTSGRunSummary.num_tests_ran a + UTSGRunSummary.num_tests_ran b)
    (UTSGRunSummary.num_tests_passed a + UTSGRunSummary.num_tests_passed b)
    (UTSGRunSummary.num_tests_failed a + UTSGRunSummary.num_tests_failed b)
    (UTSGRunSummary.points_available a + UTSGRunSummary.points_available b)%Q
    (UTSGRunSummary.points_earned a + UTSGRunSummary.points_earned b)%Q.

(** ** Further predicates *)

(** Both score bounds lie between 0 and 1. *)
Definition bounds_ok (w : World) : Prop :=
  (0 <= UTSGTestResult._utsg_score_floor (recorder w) <= 1)%Q
  /\ (0 <= UTSGTestResult._utsg_score_ceiling (recorder w) <= 1)%Q.

(** A recorder fresh from [__init__], on a store with nothing else. *)
Definition fresh_world : World := snd (UTSGTestResult_init blank_world).

(** The outcome at [l] exists and its points are [p]. *)
Definition points_fixed (l : loc) (p : Q) (w : World) : Prop :=
  l < next_info w /\ UTSGTestCaseInfo.points (infos w l) = Some p.

(** The outcome at [l] exists and its message is [m]. *)
Definition message_fixed (l : loc) (m : string) (w : World) : Prop :=
  l < next_info w /\ UTSGTestCaseInfo.message (infos w l) = Some m.
(** A test that has been started and has set its own points and message. *)
Definition explicit_points_world : World :=
  snd ((T <- UTSGTestCase_init "test_one" None 1 0 true false ;;
        startTestRun ;;
        startTest no_repr T ;;
        c <- read_case T ;;
        modify_info (UTSGTestCase.utsg_test_case_info c)
          (UTSGTestCaseInfo.set_points (Some (7 # 1))) ;;
        modify_info (UTSGTestCase.utsg_test_case_info c)
          (UTSGTestCaseInfo.set_message (Some "half credit"))) fresh_world).

(** How many outcomes of the list have a status that [p] accepts. *)
Definition count_status (p : UTSGTestStatus -> bool) (w : World) (ts : list loc) : nat :=
  length (List.filter (fun t => p (UTSGTestCaseInfo._status (infos w t))) ts).

(** The fields of the recorder that [stopTestRun] only reads. *)
Definition same_configuration (r : UTSGTestResult.t) (w : World) : Prop :=
  UTSGTestResult._utsg_score_floor (recorder w) = UTSGTestResult._utsg_score_floor r
  /\ UTSGTestResult._utsg_score_ceiling (recorder w) = UTSGTestResult._utsg_score_ceiling r
  /\ UTSGTestResult.visible_tests_info (recorder w) = UTSGTestResult.visible_tests_info r
  /\ UTSGTestResult.hidden_tests_info (recorder w) = UTSGTestResult.hidden_tests_info r
  /\ UTSGTestResult.excluded_tests_info (recorder w) = UTSGTestResult.excluded_tests_info r.
(** Whenever the computation returns, [Q] holds of the store it leaves. *)
Definition ensures {A : Type} (m : M A) (Q : World -> Prop) : Prop :=
  forall w a w', m w = (Return a, w') -> Q w'.

(** The result file holds the [utsg_results] of the recorder. *)
Definition file_written (w : World) : Prop :=
  result_file w = Some (UTSGTestResult.utsg_results (recorder w)).
(** The outcome at [l] is PASSED or FAILED and has points. *)
Definition resolved (l : loc) (w : World) : Prop :=
  completed (UTSGTestCaseInfo._status (infos w l)) = true
  /\ UTSGTestCaseInfo.points (infos w l) <> None.

(** The status of the outcome at [l] is terminal. *)
Definition status_terminal (l : loc) (w : World) : Prop :=
  terminal (UTSGTestCaseInfo._status (infos w l)) = true.

(** ** Stores built by a run *)

(** Every filed outcome exists and has points. *)
Definition filed_ok (w : World) : Prop :=
  forall k l, In l (lists w k) ->
    l < next_info w /\ UTSGTestCaseInfo.points (infos w l) <> None.

(** The outcome of every test case, and of each of its sub-tests, exists. *)
Definition cases_ok (w : World) : Prop :=
  forall t, t < next_case w ->
    UTSGTestCase.utsg_test_case_info (cases w t) < next_info w
    /\ forall s, In s (UTSGTestCase.utsg_subtests (cases w t)) ->
         UTSGSubTest.utsg_test_case_info s < next_info w.

Definition well_formed (w : World) : Prop := filed_ok w /\ cases_ok w.

(** A well-formed store with [n] outcomes and [m] test cases. *)
Definition well_formed_at (n m : nat) (w : World) : Prop :=
  well_formed w /\ next_info w = n /\ next_case w = m.

(** The test case that the event names is one of the first [m]. *)
Definition names_a_test_case (m : nat) (ev : event) : bool :=
  match ev with
  | ev_startTest t | ev_stopTest t | ev_addFailure t _ | ev_addSuccess t
  | ev_addExpectedFailure t _ | ev_addUnexpectedSuccess t | ev_addSubTest t _
  | ev_addError (Some t) _ => t <? m
  | ev_add_graded_subTest this _ _ _ _ _ _ _ _ => this <? m
  | ev___enter__ s | ev___exit__ s _ => UTSGSubTest.parent_test_case s <? m
  | _ => true
  end.

(** Every event of the sequence names a test case that has been
    constructed when the event is delivered. *)
Fixpoint valid_run (float_repr : Q -> string)
    (final_results_template :
       World -> UTSGRunSummary.t -> UTSGRunSummary.t -> UTSGRunSummary.t -> Q -> string)
    (evs : list event) (w : World) : bool :=
  match evs with
  | [] => true
  | ev :: evs' =>
      names_a_test_case (next_case w) ev
      && valid_run float_repr final_results_template evs'
           (snd (deliver float_repr final_results_template ev w))
  end.

(** What [_log_success] and [_log_failure] do to the store: the outcome at
    [t] gets points and is appended to one list. *)
Definition files (t : loc) (w w' : World) : Prop :=
  next_info w' = next_info w
  /\ next_case w' = next_case w
  /\ cases w' = cases w
  /\ (forall l, l <> t -> infos w' l = infos w l)
  /\ UTSGTestCaseInfo.points (infos w' t) <> None
  /\ forall k x, In x (lists w' k) -> In x (lists w k) \/ x = t.

(** One test case with one sub-test that passes, run up to [stopTest]. *)
Definition one_subtest_run : list event :=
  [ ev_UTSGTestCase "test_one" None 1 0 true false;
    ev_startTestRun;
    ev_startTest 0;
    ev_add_graded_subTest 0 None None None None true None false [];
    ev___enter__ (UTSGSubTest.mk 1 0);
    ev___exit__ (UTSGSubTest.mk 1 0) None;
    ev_addSuccess 0;
    ev_stopTest 0 ].

(** ** Scopes and the runner *)

(** An outcome with nothing pending: the test is not expecting a failure,
    no expected failure is recorded, and the result does not fail fast. *)
Definition quiet (w : World) : Prop :=
  outcome_expecting_failure w = false
  /\ outcome_expectedFailure w = None
  /\ UTSGTestResult.failfast (recorder w) = false.



(** A test method with one sub-test whose block raises [e]. *)
Definition raising_subtest (format_tb : exn -> string) (e : exn) (this : loc) : M unit :=
  s <- add_graded_subTest this None None None None true None true [] ;;
  with_ format_tb s (raise e).

(** The run of two test cases: the method of the first is
    [raising_subtest], the method of the second does nothing.  Their infos
    are at the addresses 0 and 1, the info of the sub-test at 2. *)
Definition run_raising_subtest (float_repr : Q -> string) (format_tb : exn -> string)
    (e : exn) : M unit :=
  UTSGTestResult_init ;;
  T <- UTSGTestCase_init "test_one" None 1 0 true false ;;
  U <- UTSGTestCase_init "test_two" None 1 0 true false ;;
  startTestRun ;;
  TestSuite_run
    [TestCase_run float_repr format_tb false T (raising_subtest format_tb e);
     TestCase_run float_repr format_tb false U (fun _ => ret tt)].

(** Whatever exception other than an [AssertionError] a sub-test block
    raises, the sub-test is CRASHED and the run is aborted: the recorder is
    told to stop and the second test is never started. *)
Definition other_exception_aborts_the_run (float_repr : Q -> string)
    (format_tb : exn -> string) : Prop :=
  forall e, is_AssertionError e = false ->
    let w := snd (run_raising_subtest float_repr format_tb e blank_world) in
    UTSGTestResult.shouldStop (recorder w) = true
    /\ UTSGTestCaseInfo._status (infos w 1) = SCHEDULED.


(** The bounds and the stored score lie between 0 and 1. *)
Definition score_in_range (w : World) : Prop :=
  bounds_ok w /\ (0 <= stored_score w <= 1)%Q.

(** * Proofs *)

(** ** Comparisons and the clamp *)

Lemma Qlt_bool_true (a b : Q) : Qlt_bool a b = true <-> (a < b)%Q.
Proof.
  unfold Qlt_bool. rewrite negb_true_iff. split.
  - intros H. apply Qnot_le_lt. intros Hle. apply Qle_bool_iff in Hle. congruence.
  - intros H. destruct (Qle_bool b a) eqn:E; [|reflexivity].
    apply Qle_bool_iff in E. exfalso. exact (Qlt_not_le _ _ H E).
Qed.

Lemma Qlt_bool_false (a b : Q) : Qlt_bool a b = false <-> (b <= a)%Q.
Proof. unfold Qlt_bool. rewrite negb_false_iff. apply Qle_bool_iff. Qed.

Lemma clamp_bounds (floor ceiling r : Q) :
  (floor <= ceiling)%Q -> (floor <= clamp floor ceiling r <= ceiling)%Q.
Proof.
  intros Hfc. unfold clamp, py_min, py_max.
  destruct (Qlt_bool floor r) eqn:E1.
  - destruct (Qlt_bool r ceiling) eqn:E2.
    + apply Qlt_bool_true in E1, E2. split; apply Qlt_le_weak; assumption.
    + split; [assumption | apply Qle_refl].
  - destruct (Qlt_bool floor ceiling) eqn:E2.
    + split; [apply Qle_refl | assumption].
    + split; [assumption | apply Qle_refl].
Qed.

Lemma clamp_idempotent (floor ceiling r : Q) :
  clamp floor ceiling (clamp floor ceiling r) = clamp floor ceiling r.
Proof.
  unfold clamp, py_min, py_max.
  destruct (Qlt_bool floor r) eqn:E1.
  - destruct (Qlt_bool r ceiling) eqn:E2.
    + rewrite E1, E2. reflexivity.
    + destruct (Qlt_bool floor ceiling) eqn:E3.
      * destruct (Qlt_bool ceiling ceiling) eqn:E4; reflexivity.
      * rewrite E3. reflexivity.
  - destruct (Qlt_bool floor ceiling) eqn:E2.
    + destruct (Qlt_bool floor floor) eqn:E3; rewrite E2; reflexivity.
    + destruct (Qlt_bool floor ceiling) eqn:E3; [discriminate|].
      rewrite E3. reflexivity.
Qed.

(** ** The summaries *)

Lemma post_init_step_ok (w : World) (acc : UTSGRunSummary.t) (t : loc) :
  summable w [t] = true ->
  exists s, __post_init___step acc t w = (Return s, w)
    /\ UTSGRunSummary.tests s = UTSGRunSummary.tests acc
    /\ UTSGRunSummary.points_available s
       = (UTSGRunSummary.points_available acc + UTSGTestCaseInfo.max_points (infos w t))%Q
    /\ (UTSGRunSummary.points_earned s
        == UTSGRunSummary.points_earned acc + points_counted (infos w t))%Q.
Proof.
  unfold summable, __post_init___step, points_counted, completed, bind, read_info, ret, raise.
  simpl. rewrite andb_true_r.
  destruct (UTSGTestCaseInfo._status (infos w t)); simpl;
    destruct (UTSGTestCaseInfo.points (infos w t)); simpl; intros H;
    try discriminate; eexists; (split; [reflexivity|]); simpl;
    repeat split; try reflexivity; ring.
Qed.

Lemma post_init_loop_ok (w : World) (ts : list loc) : forall acc,
  summable w ts = true ->
  exists s, __post_init___loop acc ts w = (Return s, w)
    /\ UTSGRunSummary.tests s = UTSGRunSummary.tests acc
    /\ (UTSGRunSummary.points_available s
        == UTSGRunSummary.points_available acc + sum_max_points w ts)%Q
    /\ (UTSGRunSummary.points_earned s
        == UTSGRunSummary.points_earned acc + sum_points_earned w ts)%Q.
Proof.
  induction ts as [|t ts IH]; intros acc H.
  - exists acc. simpl. repeat split; try reflexivity; ring.
  - simpl in H. apply andb_true_iff in H as [Ht Hts].
    destruct (post_init_step_ok w acc t) as (s1 & E1 & T1 & A1 & P1).
    { simpl. rewrite Ht. reflexivity. }
    destruct (IH s1 Hts) as (s & E & T & A & P).
    exists s. simpl. unfold bind at 1. rewrite E1. rewrite E.
    repeat split; try congruence.
    + rewrite A, A1. simpl. ring.
    + rewrite P, P1. simpl. ring.
Qed.

Lemma sum_max_points_app w a b :
  (sum_max_points w (a ++ b) == sum_max_points w a + sum_max_points w b)%Q.
Proof. induction a as [|x a IH]; simpl; [ring | rewrite IH; ring]. Qed.

Lemma sum_points_earned_app w a b :
  (sum_points_earned w (a ++ b) == sum_points_earned w a + sum_points_earned w b)%Q.
Proof. induction a as [|x a IH]; simpl; [ring | rewrite IH; ring]. Qed.

Lemma summarize_partitions_ok (w : World) :
  summable w (lists w (UTSGTestResult.hidden_tests_info (recorder w))) = true ->
  summable w (lists w (UTSGTestResult.visible_tests_info (recorder w))) = true ->
  exists h v t, summarize_partitions w = (Return (h, v, t), after_add w)
    /\ UTSGRunSummary.tests t = UTSGTestResult.hidden_tests_info (recorder w)
    /\ (UTSGRunSummary.points_available t
        == sum_max_points w (lists w (UTSGTestResult.hidden_tests_info (recorder w))
                             ++ lists w (UTSGTestResult.visible_tests_info (recorder w))))%Q
    /\ (UTSGRunSummary.points_earned t
        == sum_points_earned w (lists w (UTSGTestResult.hidden_tests_info (recorder w))
                                ++ lists w (UTSGTestResult.visible_tests_info (recorder w))))%Q.
Proof.
  intros Hh Hv.
  destruct (post_init_loop_ok w _
              (UTSGRunSummary.mk (UTSGTestResult.hidden_tests_info (recorder w)) 0 0 0 0 0 0) Hh)
    as (h & Eh & Th & Ah & Ph).
  destruct (post_init_loop_ok w _
              (UTSGRunSummary.mk (UTSGTestResult.visible_tests_info (recorder w)) 0 0 0 0 0 0) Hv)
    as (v & Ev & Tv & Av & Pv).
  simpl in *.
  eexists h, v, _. split.
  - unfold summarize_partitions, UTSGRunSummary_new, __post_init__, bind, self, read_list.
    simpl. rewrite Eh, Ev. unfold __add__, bind, read_list, list_extend, modify, ret. simpl.
    rewrite Th, Tv. reflexivity.
  - simpl. split; [reflexivity|].
    rewrite sum_max_points_app, sum_points_earned_app, Ah, Av, Ph, Pv. split; ring.
Qed.

(** [stopTestRun] when the bounds are in order and the partitions can be
    summed: it returns, and this is what it leaves behind. *)
Lemma stopTestRun_ok float_repr final_results_template (w : World) :
  Qlt_bool (UTSGTestResult._utsg_score_ceiling (recorder w))
           (UTSGTestResult._utsg_score_floor (recorder w)) = false ->
  summable w (lists w (UTSGTestResult.hidden_tests_info (recorder w))) = true ->
  summable w (lists w (UTSGTestResult.visible_tests_info (recorder w))) = true ->
  exists h v t w',
    summarize_partitions w = (Return (h, v, t), after_add w)
    /\ stopTestRun float_repr final_results_template w = (Return tt, w')
    /\ result_file w' = Some (UTSGTestResult.utsg_results (recorder w'))
    /\ Results.score (UTSGTestResult.utsg_results (recorder w')) = Some (final_score w t)
    /\ Results.gradable (UTSGTestResult.utsg_results (recorder w'))
       = Results.gradable (UTSGTestResult.utsg_results (recorder w))
    /\ Results.tests (UTSGTestResult.utsg_results (recorder w'))
       = Some (map (fun x => UTSGTestCaseInfo.as_prairielearn_json_dict (infos w x))
                 (lists (after_add w) (UTSGTestResult.visible_tests_info (recorder w))))
    /\ infos w' = infos w
    /\ lists w' = lists (after_add w)
    /\ UTSGTestResult.scored (recorder w') = true
    /\ UTSGTestResult.shouldStop (recorder w') = UTSGTestResult.shouldStop (recorder w).
Proof.
  intros Hfc Hh Hv.
  destruct (summarize_partitions_ok w Hh Hv) as (h & v & t & E & _).
  exists h, v, t.
  unfold stopTestRun, bind at 1, self. simpl. rewrite Hfc.
  unfold bind at 1. rewrite E.
  unfold final_score, stored_score, score_run, bind, self, get_score, set_score, modify_results, modify_self,
    modify, self, ret, read_list, get, set_recorded_tests, get_message, set_message,
    dump_results, bind, modify_results, modify_self, modify, self, ret.
  simpl.
  destruct (UTSGTestResult.scored (recorder w)) eqn:Es; simpl.
  - destruct (Results.score (UTSGTestResult.utsg_results (recorder w))) eqn:Esc; simpl;
      rewrite ?Esc; simpl;
      destruct (Results.message (UTSGTestResult.utsg_results (recorder w))); simpl;
      eexists; repeat split; simpl; try reflexivity; auto.
  - destruct (Results.message (UTSGTestResult.utsg_results (recorder w))); simpl;
      eexists; repeat split; simpl; try reflexivity; auto.
Qed.

(** ** The excluded list *)

Lemma post_init_step_reads acc t w : snd (__post_init___step acc t w) = w.
Proof.
  unfold __post_init___step, bind, read_info, ret, raise. simpl.
  destruct (orb _ _); [destruct (UTSGTestCaseInfo.points _)|]; reflexivity.
Qed.

Lemma post_init_step_infos acc t w1 w2 :
  infos w1 = infos w2 ->
  fst (__post_init___step acc t w1) = fst (__post_init___step acc t w2).
Proof.
  intros H. unfold __post_init___step, bind, read_info, ret, raise. simpl. rewrite H.
  destruct (orb _ _); [destruct (UTSGTestCaseInfo.points _)|]; reflexivity.
Qed.

Lemma post_init_loop_infos ts : forall acc w1 w2,
  infos w1 = infos w2 ->
  fst (__post_init___loop acc ts w1) = fst (__post_init___loop acc ts w2).
Proof.
  induction ts as [|t ts IH]; intros acc w1 w2 H; simpl; [reflexivity|].
  unfold bind.
  assert (H1 := post_init_step_reads acc t w1).
  assert (H2 := post_init_step_reads acc t w2).
  assert (Hf := post_init_step_infos acc t w1 w2 H).
  destruct (__post_init___step acc t w1) as [[a1|e1] w1'];
    destruct (__post_init___step acc t w2) as [[a2|e2] w2']; simpl in *;
    try discriminate; subst.
  - injection Hf as ->. apply IH. exact H.
  - exact Hf.
Qed.

Lemma summarize_partitions_from_loops (w : World) h v :
  __post_init___loop
    (UTSGRunSummary.mk (UTSGTestResult.hidden_tests_info (recorder w)) 0 0 0 0 0 0)
    (lists w (UTSGTestResult.hidden_tests_info (recorder w))) w = (Return h, w) ->
  __post_init___loop
    (UTSGRunSummary.mk (UTSGTestResult.visible_tests_info (recorder w)) 0 0 0 0 0 0)
    (lists w (UTSGTestResult.visible_tests_info (recorder w))) w = (Return v, w) ->
  UTSGRunSummary.tests h = UTSGTestResult.hidden_tests_info (recorder w) ->
  UTSGRunSummary.tests v = UTSGTestResult.visible_tests_info (recorder w) ->
  summarize_partitions w = (Return (h, v, sum_summaries h v), after_add w).
Proof.
  intros Eh Ev Th Tv.
  unfold summarize_partitions, UTSGRunSummary_new, __post_init__, bind, self, read_list.
  simpl. rewrite Eh, Ev.
  unfold __add__, bind, read_list, list_extend, modify, ret, sum_summaries, after_add.
  simpl. rewrite Th, Tv. reflexivity.
Qed.

(** Replacing the excluded list changes neither the summaries nor the score
    and tests that [stopTestRun] stores. *)
Lemma excluded_list_is_not_read fr tmpl (w : World) (xs : list loc) :
  UTSGTestResult.excluded_tests_info (recorder w)
  <> UTSGTestResult.hidden_tests_info (recorder w) ->
  UTSGTestResult.excluded_tests_info (recorder w)
  <> UTSGTestResult.visible_tests_info (recorder w) ->
  Qlt_bool (UTSGTestResult._utsg_score_ceiling (recorder w))
           (UTSGTestResult._utsg_score_floor (recorder w)) = false ->
  summable w (lists w (UTSGTestResult.hidden_tests_info (recorder w))) = true ->
  summable w (lists w (UTSGTestResult.visible_tests_info (recorder w))) = true ->
  let wx := with_list (UTSGTestResult.excluded_tests_info (recorder w)) xs w in
  fst (summarize_partitions wx) = fst (summarize_partitions w)
  /\ Results.score (UTSGTestResult.utsg_results (recorder (snd (stopTestRun fr tmpl wx))))
     = Results.score (UTSGTestResult.utsg_results (recorder (snd (stopTestRun fr tmpl w))))
  /\ Results.tests (UTSGTestResult.utsg_results (recorder (snd (stopTestRun fr tmpl wx))))
     = Results.tests (UTSGTestResult.utsg_results (recorder (snd (stopTestRun fr tmpl w)))).
Proof.
  intros Hh Hv Hfc Sh Sv wx.
  assert (Lh : lists wx (UTSGTestResult.hidden_tests_info (recorder w))
               = lists w (UTSGTestResult.hidden_tests_info (recorder w))).
  { unfold wx, with_list, upd. simpl.
    destruct (Nat.eqb _ _) eqn:E; [apply Nat.eqb_eq in E; congruence | reflexivity]. }
  assert (Lv : lists wx (UTSGTestResult.visible_tests_info (recorder w))
               = lists w (UTSGTestResult.visible_tests_info (recorder w))).
  { unfold wx, with_list, upd. simpl.
    destruct (Nat.eqb _ _) eqn:E; [apply Nat.eqb_eq in E; congruence | reflexivity]. }
  assert (Sh' : summable wx (lists wx (UTSGTestResult.hidden_tests_info (recorder wx))) = true).
  { change (recorder wx) with (recorder w). rewrite Lh. exact Sh. }
  assert (Sv' : summable wx (lists wx (UTSGTestResult.visible_tests_info (recorder wx))) = true).
  { change (recorder wx) with (recorder w). rewrite Lv. exact Sv. }
  change (recorder wx) with (recorder w) in Sh', Sv'.
  set (acc_h := UTSGRunSummary.mk (UTSGTestResult.hidden_tests_info (recorder w)) 0 0 0 0 0 0).
  set (acc_v := UTSGRunSummary.mk (UTSGTestResult.visible_tests_info (recorder w)) 0 0 0 0 0 0).
  destruct (post_init_loop_ok w _ acc_h Sh) as (h & Eh & Th & _).
  destruct (post_init_loop_ok w _ acc_v Sv) as (v & Ev & Tv & _).
  destruct (post_init_loop_ok wx _ acc_h Sh') as (hx & Ehx & _).
  destruct (post_init_loop_ok wx _ acc_v Sv') as (vx & Evx & _).
  assert (Hi : infos wx = infos w) by reflexivity.
  assert (Hhx : hx = h).
  { assert (H := post_init_loop_infos
                   (lists w (UTSGTestResult.hidden_tests_info (recorder w))) acc_h wx w Hi).
    assert (Ehx' := Ehx). rewrite Lh in Ehx'.
    rewrite Ehx', Eh in H. simpl in H. congruence. }
  assert (Hvx : vx = v).
  { assert (H := post_init_loop_infos
                   (lists w (UTSGTestResult.visible_tests_info (recorder w))) acc_v wx w Hi).
    assert (Evx' := Evx). rewrite Lv in Evx'.
    rewrite Evx', Ev in H. simpl in H. congruence. }
  subst hx vx.
  assert (E1 := summarize_partitions_from_loops w h v Eh Ev Th Tv).
  assert (E1x := summarize_partitions_from_loops wx h v Ehx Evx Th Tv).
  destruct (stopTestRun_ok fr tmpl w Hfc Sh Sv)
    as (h0 & v0 & t0 & w' & F1 & E2 & _ & Es & _ & Et & _).
  rewrite E1 in F1. injection F1 as <- <- <-.
  destruct (stopTestRun_ok fr tmpl wx Hfc Sh' Sv')
    as (h0 & v0 & t0 & wx' & F1 & E2x & _ & Esx & _ & Etx & _).
  rewrite E1x in F1. injection F1 as <- <- <-.
  split; [rewrite E1, E1x; reflexivity|].
  rewrite E2, E2x. cbv beta iota delta [snd]. rewrite Es, Esx, Et, Etx.
  split; [reflexivity|].
  f_equal. f_equal. unfold after_add, upd. cbv beta iota delta [lists set_lists].
  fold (lists w) (lists wx). change (recorder wx) with (recorder w).
  destruct (Nat.eqb _ _); [rewrite Lh, Lv; reflexivity | exact Lv].
Qed.

(** ** Predicates kept by a computation *)

Lemma preserves_ret {A} P (a : A) : preserves P (ret a).
Proof. intros w H. exact H. Qed.

Lemma preserves_raise {A} P e : preserves P (@raise A e).
Proof. intros w H. exact H. Qed.

Lemma preserves_bind {A B} P (m : M A) (k : A -> M B) :
  preserves P m -> (forall a, preserves P (k a)) -> preserves P (bind m k).
Proof.
  intros Hm Hk w H. unfold bind. specialize (Hm w H).
  destruct (m w) as [[a|e] w']; simpl in *; [apply Hk; exact Hm | exact Hm].
Qed.

Lemma preserves_try {A} P (m : M A) : preserves P m -> preserves P (try m).
Proof. intros Hm w H. exact (Hm w H). Qed.

Lemma preserves_for_each {A} P (body : A -> M unit) l :
  (forall a, preserves P (body a)) -> preserves P (for_each body l).
Proof.
  intros Hb. induction l as [|x l IH]; simpl.
  - apply preserves_ret.
  - apply preserves_bind; [apply Hb | intros _; exact IH].
Qed.

Lemma preserves_read_info P l : preserves P (read_info l).
Proof. intros w H. exact H. Qed.

Lemma preserves_read_case P l : preserves P (read_case l).
Proof. intros w H. exact H. Qed.

Lemma preserves_read_list P l : preserves P (read_list l).
Proof. intros w H. exact H. Qed.

Lemma preserves_self P : preserves P self.
Proof. intros w H. exact H. Qed.

Lemma preserves_get P : preserves P get.
Proof. intros w H. exact H. Qed.

(** One step through the structure of a method. *)
Ltac pstep :=
  lazymatch goal with
  | |- preserves _ super_failfast => unfold super_failfast
  | |- preserves _ (addSkip _) => unfold addSkip
  | |- preserves _ (bind _ _) => apply preserves_bind; [| intros ?]
  | |- preserves _ (ret _) => apply preserves_ret
  | |- preserves _ (raise _) => apply preserves_raise
  | |- preserves _ (try _) => apply preserves_try
  | |- preserves _ (read_info _) => apply preserves_read_info
  | |- preserves _ (read_case _) => apply preserves_read_case
  | |- preserves _ (read_list _) => apply preserves_read_list
  | |- preserves _ self => apply preserves_self
  | |- preserves _ get => apply preserves_get
  | |- preserves _ (for_each _ _) => apply preserves_for_each; intros ?
  | |- preserves _ (if ?b then _ else _) => destruct b
  | |- preserves _ (match ?x with _ => _ end) => destruct x
  end.

Lemma preserves_post_init_loop P ts : forall acc, preserves P (__post_init___loop acc ts).
Proof.
  induction ts as [|t ts IH]; intros acc; simpl.
  - apply preserves_ret.
  - apply preserves_bind; [|intros a; apply IH].
    unfold __post_init___step. repeat pstep.
Qed.

Lemma preserves_first_crashed P ss d : preserves P (first_crashed ss d).
Proof.
  induction ss as [|s ss IH]; simpl.
  - apply preserves_ret.
  - repeat pstep. exact IH.
Qed.

Lemma first_crashed_reads ss d w : exists x, first_crashed ss d w = (Return x, w).
Proof.
  induction ss as [|s ss IH]; simpl.
  - eexists. reflexivity.
  - unfold bind, read_info. simpl.
    destruct (UTSGTestStatus_eqb _ CRASHED); [eexists; reflexivity | exact IH].
Qed.

(** ** A terminal status stays terminal *)

Lemma kept_modify_info l l' f :
  (l' = l -> forall i, terminal (UTSGTestCaseInfo._status i) = true ->
             terminal (UTSGTestCaseInfo._status (f i)) = true) ->
  preserves (kept l) (modify_info l' f).
Proof.
  intros Hf w [Hl Ht]. unfold modify_info, modify, kept, upd. simpl.
  split; [exact Hl|].
  destruct (Nat.eqb l l') eqn:E; [|exact Ht].
  apply Nat.eqb_eq in E. subst l'. apply Hf; [reflexivity | exact Ht].
Qed.

Lemma kept_alloc_info l i : preserves (kept l) (alloc_info i).
Proof.
  intros w [Hl Ht]. unfold alloc_info, kept, upd. simpl.
  split; [lia|].
  destruct (Nat.eqb l (next_info w)) eqn:E; [|exact Ht].
  apply Nat.eqb_eq in E. lia.
Qed.

Ltac kept_leaf :=
  first [ apply kept_alloc_info
        | apply kept_modify_info; intros _ ? ?; (assumption || reflexivity)
        | apply preserves_post_init_loop
        | apply preserves_first_crashed
        | (intros ? ?; assumption) ].

Ltac kept_tac := repeat pstep; kept_leaf.

Section KeptOps.

Variable l : loc.
Variable float_repr : Q -> string.
Variable final_results_template :
  World -> UTSGRunSummary.t -> UTSGRunSummary.t -> UTSGRunSummary.t -> Q -> string.

Lemma kept__log_test_result t : preserves (kept l) (_log_test_result t).
Proof. unfold _log_test_result. kept_tac. Qed.

Lemma kept__log_failure t : preserves (kept l) (_log_failure t).
Proof. unfold _log_failure. repeat pstep; try apply kept__log_test_result; kept_leaf. Qed.

Lemma kept__log_success t : preserves (kept l) (_log_success t).
Proof. unfold _log_success. repeat pstep; try apply kept__log_test_result; kept_leaf. Qed.

Lemma kept_startTestRun : preserves (kept l) startTestRun.
Proof. unfold startTestRun. kept_tac. Qed.

Lemma kept_stopTestRun : preserves (kept l) (stopTestRun float_repr final_results_template).
Proof.
  unfold stopTestRun, summarize_partitions, UTSGRunSummary_new, __post_init__, __add__,
    score_run, get_score, get_message, set_message, dump_results.
  kept_tac.
Qed.

Lemma kept_stopTest t : preserves (kept l) (stopTest t).
Proof.
  unfold stopTest, stopTest_subtest, set_message, set_output.
  repeat pstep; try apply kept__log_success; try apply kept__log_failure; kept_leaf.
Qed.

Lemma kept_addError t err : preserves (kept l) (addError t err).
Proof. unfold addError, get_output, set_output. kept_tac. Qed.

Lemma kept_addFailure t err : preserves (kept l) (addFailure t err).
Proof. unfold addFailure. repeat pstep; try apply kept__log_failure; kept_leaf. Qed.

Lemma kept_addSuccess t : preserves (kept l) (addSuccess t).
Proof. unfold addSuccess. repeat pstep; try apply kept__log_success; kept_leaf. Qed.

Lemma kept_addUnexpectedSuccess t : preserves (kept l) (addUnexpectedSuccess t).
Proof. unfold addUnexpectedSuccess, set_message. kept_tac. Qed.

Lemma kept_addSubTest t err : preserves (kept l) (addSubTest t err).
Proof. unfold addSubTest. repeat pstep; try apply kept__log_failure; kept_leaf. Qed.

Lemma kept___exit__ s err : preserves (kept l) (__exit__ s err).
Proof.
  unfold __exit__, subtest_context_manager___exit__.
  repeat pstep; try apply kept_addSubTest; kept_leaf.
Qed.

Lemma kept_add_graded_subTest this n d mp pl inc h ip ps :
  preserves (kept l) (add_graded_subTest this n d mp pl inc h ip ps).
Proof. unfold add_graded_subTest. kept_tac. Qed.

Lemma kept_UTSGTestCase_init n d mp pl inc h :
  preserves (kept l) (UTSGTestCase_init n d mp pl inc h).
Proof. unfold UTSGTestCase_init. kept_tac. Qed.

Lemma kept_startTest t w :
  UTSGTestCase.utsg_test_case_info (cases w t) <> l ->
  kept l w -> kept l (snd (startTest float_repr t w)).
Proof.
  intros Hne [Hl Ht].
  unfold startTest, set_utsg_score_floor, set_utsg_score_ceiling, bind, read_case, raise,
    modify_self, modify_info, modify, kept, upd.
  simpl.
  repeat match goal with |- context [if ?b then _ else _] =>
    lazymatch b with Nat.eqb _ _ => fail | _ => destruct b; simpl end end;
  try (split; assumption).
  split; [assumption|].
  destruct (Nat.eqb l (UTSGTestCase.utsg_test_case_info (cases w t))) eqn:E; [|assumption].
  apply Nat.eqb_eq in E. congruence.
Qed.

Lemma kept___enter__ s w :
  UTSGSubTest.utsg_test_case_info s <> l ->
  kept l w -> kept l (snd (__enter__ s w)).
Proof.
  intros Hne [Hl Ht]. unfold __enter__, bind, modify_info, modify, ret, kept, upd. simpl.
  split; [assumption|].
  destruct (Nat.eqb l (UTSGSubTest.utsg_test_case_info s)) eqn:E; [|assumption].
  apply Nat.eqb_eq in E. congruence.
Qed.

Lemma kept_deliver ev w :
  starts w ev l = false ->
  kept l w -> kept l (snd (deliver float_repr final_results_template ev w)).
Proof.
  intros Hs Hk. destruct ev; unfold deliver; simpl in Hs.
  - exact (kept_startTestRun w Hk).
  - exact (kept_stopTestRun w Hk).
  - apply kept_startTest; [|exact Hk]. apply Nat.eqb_neq. exact Hs.
  - exact (kept_stopTest _ w Hk).
  - exact (kept_addError _ _ w Hk).
  - exact (kept_addFailure _ _ w Hk).
  - exact (kept_addSuccess _ w Hk).
  - exact Hk.
  - exact (kept_addUnexpectedSuccess _ w Hk).
  - exact (kept_addSubTest _ _ w Hk).
  - refine (preserves_bind (kept l) _ _ _ _ w Hk);
      [apply kept_UTSGTestCase_init | intros; apply preserves_ret].
  - refine (preserves_bind (kept l) _ _ _ _ w Hk);
      [apply kept_add_graded_subTest | intros; apply preserves_ret].
  - apply Nat.eqb_neq in Hs.
    assert (H := kept___enter__ subtest w Hs Hk).
    unfold bind. destruct (__enter__ subtest w) as [[a|e] w']; exact H.
  - refine (preserves_bind (kept l) _ _ _ _ w Hk);
      [apply kept___exit__ | intros; apply preserves_ret].
Qed.

End KeptOps.

(** ** After a crash the recorder stays crashed *)

Ltac crashed_leaf :=
  first [ apply preserves_post_init_loop
        | apply preserves_first_crashed
        | (intros ? ?; assumption)
        | (intros ? (? & ? & ? & ?);
           unfold crashed_state, set_gradable, set_score, set_images, set_recorded_tests, stop,
             modify_results, modify_self, modify_info, modify_case, modify,
             alloc_info, alloc_case, alloc_list, list_append, list_extend;
           simpl; repeat split; (assumption || reflexivity)) ].

Ltac crashed_tac := repeat pstep; crashed_leaf.

Section CrashedOps.

Variable float_repr : Q -> string.
Variable final_results_template :
  World -> UTSGRunSummary.t -> UTSGRunSummary.t -> UTSGRunSummary.t -> Q -> string.

Lemma crashed__log_test_result t : preserves crashed_state (_log_test_result t).
Proof. unfold _log_test_result. crashed_tac. Qed.

Lemma crashed__log_failure t : preserves crashed_state (_log_failure t).
Proof. unfold _log_failure. repeat pstep; try apply crashed__log_test_result; crashed_leaf. Qed.

Lemma crashed__log_success t : preserves crashed_state (_log_success t).
Proof. unfold _log_success. repeat pstep; try apply crashed__log_test_result; crashed_leaf. Qed.

Lemma crashed_score_run t : preserves crashed_state (score_run t).
Proof.
  intros w H. assert (Hs := proj1 H).
  unfold score_run, bind, self. simpl. rewrite Hs. exact H.
Qed.

Lemma crashed_stopTestRun :
  preserves crashed_state (stopTestRun float_repr final_results_template).
Proof.
  unfold stopTestRun, summarize_partitions, UTSGRunSummary_new, __post_init__, __add__,
    get_score, get_message, set_message, dump_results.
  repeat pstep; try apply crashed_score_run; crashed_leaf.
Qed.

Lemma crashed_startTest t : preserves crashed_state (startTest float_repr t).
Proof. unfold startTest, set_utsg_score_floor, set_utsg_score_ceiling. crashed_tac. Qed.

Lemma crashed_stopTest t : preserves crashed_state (stopTest t).
Proof.
  unfold stopTest, stopTest_subtest, set_message, set_output.
  repeat pstep; try apply crashed__log_success; try apply crashed__log_failure; crashed_leaf.
Qed.

Lemma crashed_addError t err : preserves crashed_state (addError t err).
Proof. unfold addError, get_output, set_output. crashed_tac. Qed.

Lemma crashed_addFailure t err : preserves crashed_state (addFailure t err).
Proof. unfold addFailure. repeat pstep; try apply crashed__log_failure; crashed_leaf. Qed.

Lemma crashed_addSuccess t : preserves crashed_state (addSuccess t).
Proof. unfold addSuccess. repeat pstep; try apply crashed__log_success; crashed_leaf. Qed.

Lemma crashed_addUnexpectedSuccess t : preserves crashed_state (addUnexpectedSuccess t).
Proof. unfold addUnexpectedSuccess, set_message. crashed_tac. Qed.

Lemma crashed_addSubTest t err : preserves crashed_state (addSubTest t err).
Proof. unfold addSubTest. repeat pstep; try apply crashed__log_failure; crashed_leaf. Qed.

Lemma crashed___exit__ s err : preserves crashed_state (__exit__ s err).
Proof.
  unfold __exit__, subtest_context_manager___exit__.
  repeat pstep; try apply crashed_addSubTest; crashed_leaf.
Qed.

Lemma crashed___enter__ s : preserves crashed_state (__enter__ s).
Proof. unfold __enter__. crashed_tac. Qed.

Lemma crashed_add_graded_subTest this n d mp pl inc h ip ps :
  preserves crashed_state (add_graded_subTest this n d mp pl inc h ip ps).
Proof. unfold add_graded_subTest. crashed_tac. Qed.

Lemma crashed_UTSGTestCase_init n d mp pl inc h :
  preserves crashed_state (UTSGTestCase_init n d mp pl inc h).
Proof. unfold UTSGTestCase_init. crashed_tac. Qed.

Lemma crashed_deliver ev :
  is_startTestRun ev = false ->
  preserves crashed_state (deliver float_repr final_results_template ev).
Proof.
  intros Hs. destruct ev; unfold deliver; try discriminate.
  - apply crashed_stopTestRun.
  - apply crashed_startTest.
  - apply crashed_stopTest.
  - apply crashed_addError.
  - apply crashed_addFailure.
  - apply crashed_addSuccess.
  - unfold addExpectedFailure. apply preserves_ret.
  - apply crashed_addUnexpectedSuccess.
  - apply crashed_addSubTest.
  - apply preserves_bind; [apply crashed_UTSGTestCase_init | intros; apply preserves_ret].
  - apply preserves_bind; [apply crashed_add_graded_subTest | intros; apply preserves_ret].
  - apply preserves_bind; [apply crashed___enter__ | intros; apply preserves_ret].
  - apply preserves_bind; [apply crashed___exit__ | intros; apply preserves_ret].
Qed.

Lemma crashed_deliver_all evs : forall w,
  forallb (fun ev => negb (is_startTestRun ev)) evs = true ->
  crashed_state w ->
  crashed_state (deliver_all float_repr final_results_template evs w).
Proof.
  induction evs as [|ev evs IH]; intros w Hn Hc; simpl in *.
  - exact Hc.
  - apply andb_true_iff in Hn as [Hev Hn]. apply negb_true_iff in Hev.
    apply IH; [exact Hn | exact (crashed_deliver ev Hev w Hc)].
Qed.

Lemma addError_crashes t err w :
  fst (addError t err w) = Return tt /\ crashed_state (snd (addError t err w)).
Proof.
  unfold addError, super_failfast, crashed_state, bind, set_gradable, set_score, get_output,
    set_output, stop, modify_results, modify_self, modify_info, modify, read_case, read_info,
    self, ret.
  destruct (UTSGTestResult.failfast (recorder w)); destruct t as [t|]; simpl.
  - match goal with |- context [first_crashed ?ss ?d ?w0] =>
      destruct (first_crashed_reads ss d w0) as [x E]; rewrite E end.
    simpl. repeat split.
  - repeat split.
  - match goal with |- context [first_crashed ?ss ?d ?w0] =>
      destruct (first_crashed_reads ss d w0) as [x E]; rewrite E end.
    simpl. repeat split.
  - repeat split.
Qed.

End CrashedOps.

(** ** Computations that always return *)

Lemma returns_ret {A} (a : A) : returns (ret a).
Proof. intros w. eexists _, _. reflexivity. Qed.

Lemma returns_bind {A B} (m : M A) (k : A -> M B) :
  returns m -> (forall a, returns (k a)) -> returns (bind m k).
Proof.
  intros Hm Hk w. destruct (Hm w) as (a & w1 & E). destruct (Hk a w1) as (b & w2 & E2).
  exists b, w2. unfold bind. rewrite E. exact E2.
Qed.

Lemma returns_modify f : returns (modify f).
Proof. intros w. eexists _, _. reflexivity. Qed.

Lemma returns_read_info l : returns (read_info l).
Proof. intros w. eexists _, _. reflexivity. Qed.

Lemma returns_read_case l : returns (read_case l).
Proof. intros w. eexists _, _. reflexivity. Qed.

Lemma returns_self : returns self.
Proof. intros w. eexists _, _. reflexivity. Qed.

Ltac rstep :=
  lazymatch goal with
  | |- returns super_failfast => unfold super_failfast
  | |- returns stop => unfold stop
  | |- returns (addSkip _) => unfold addSkip
  | |- returns (modify_self _) => unfold modify_self
  | |- returns (bind _ _) => apply returns_bind; [| intros ?]
  | |- returns (ret _) => apply returns_ret
  | |- returns (modify _) => apply returns_modify
  | |- returns (read_info _) => apply returns_read_info
  | |- returns (read_case _) => apply returns_read_case
  | |- returns self => apply returns_self
  | |- returns (if ?b then _ else _) => destruct b
  | |- returns (match ?x with _ => _ end) => destruct x
  end.

Lemma returns__log_failure t : returns (_log_failure t).
Proof.
  unfold _log_failure, _log_test_result, modify_info, list_append. repeat rstep.
Qed.



Lemma upd_same {A : Type} (f : loc -> A) l v : upd f l v l = v.
Proof. unfold upd. rewrite Nat.eqb_refl. reflexivity. Qed.

(** ** The score bounds *)











(** * The claims *)

(** ** C1 *)



(** ** C2 *)

(** A sub-test that crashed is CRASHED when [stopTest] starts and FAILED
    when it ends: filing it goes through [_log_failure]. *)
Lemma C2_counterexample : ~ status_is_final no_repr no_template.
Proof.
  intros H. specialize (H [ev_stopTest 0] crashed_world 1 eq_refl).
  vm_compute in H. discriminate H.
Qed.

(** C2, amended.  Once the status of an outcome is terminal (PASSED, FAILED
    or CRASHED), it is terminal after every sequence of recorder and scope
    operations in which that outcome is not started again (no [startTest]
    of its test case, no [__enter__] of its scope): it never goes back to
    SCHEDULED or RUNNING.  Which terminal status it has can change. *)
Theorem C2_terminal_stays_terminal :
  forall float_repr final_results_template (evs : list event) (w : World) (l : loc),
    l < next_info w ->
    terminal (UTSGTestCaseInfo._status (infos w l)) = true ->
    never_restarted float_repr final_results_template l evs w = true ->
    terminal (UTSGTestCaseInfo._status
                (infos (deliver_all float_repr final_results_template evs w) l)) = true.
Proof.
  intros fr tmpl evs. induction evs as [|ev evs IH]; intros w l Hl Ht Hn; simpl in *.
  - exact Ht.
  - apply andb_true_iff in Hn as [Hs Hn]. apply negb_true_iff in Hs.
    destruct (kept_deliver l fr tmpl ev w Hs (conj Hl Ht)) as [Hl' Ht'].
    apply IH; assumption.
Qed.

Lemma C2_witness :
  1 < next_info crashed_world
  /\ terminal (UTSGTestCaseInfo._status (infos crashed_world 1)) = true
  /\ never_restarted no_repr no_template 1 [ev_stopTest 0; ev_stopTestRun] crashed_world = true
  /\ terminal (UTSGTestCaseInfo._status
                 (infos (deliver_all no_repr no_template [ev_stopTest 0; ev_stopTestRun]
                           crashed_world) 1)) = true.
Proof.
  split; [vm_compute; lia|]. split; [reflexivity|]. split; [reflexivity|].
  apply (C2_terminal_stays_terminal no_repr no_template [ev_stopTest 0; ev_stopTestRun]
           crashed_world 1).
  - vm_compute; lia.
  - reflexivity.
  - reflexivity.
Defined.

(** ** C3 *)




(** ** C4 *)

(** C4.  [__add__] returns the pairwise sums of the numeric fields, and its
    result shares the list of the left operand; but that list object is
    extended in place with the tests of the right operand, so the left
    operand is not left unchanged: on two summaries over the lists [0] and
    [1], the list of the left one is [0; 1] afterwards. *)
Theorem C4_add_extends_the_list_of_its_left_operand :
  (forall (a b : UTSGRunSummary.t) (w : World),
      exists total,
        __add__ a b w
        = (Return total,
           set_lists (upd (lists w) (UTSGRunSummary.tests a)
                        (lists w (UTSGRunSummary.tests a) ++ lists w (UTSGRunSummary.tests b)))
             w)
        /\ UTSGRunSummary.tests total = UTSGRunSummary.tests a
        /\ UTSGRunSummary.num_tests_available total
           = UTSGRunSummary.num_tests_available a + UTSGRunSummary.num_tests_available b
        /\ UTSGRunSummary.num_tests_ran total
           = UTSGRunSummary.num_tests_ran a + UTSGRunSummary.num_tests_ran b
        /\ UTSGRunSummary.num_tests_passed total
           = UTSGRunSummary.num_tests_passed a + UTSGRunSummary.num_tests_passed b
        /\ UTSGRunSummary.num_tests_failed total
           = UTSGRunSummary.num_tests_failed a + UTSGRunSummary.num_tests_failed b
        /\ UTSGRunSummary.points_available total
           = (UTSGRunSummary.points_available a + UTSGRunSummary.points_available b)%Q
        /\ UTSGRunSummary.points_earned total
           = (UTSGRunSummary.points_earned a + UTSGRunSummary.points_earned b)%Q)
  /\ lists two_lists 0 = [0]
  /\ lists (snd (__add__ (UTSGRunSummary.mk 0 1 0 0 0 1 0) (UTSGRunSummary.mk 1 1 0 0 0 1 0)
                   two_lists)) 0 = [0; 1]
  /\ ~ add_is_pure two_lists (UTSGRunSummary.mk 0 1 0 0 0 1 0) (UTSGRunSummary.mk 1 1 0 0 0 1 0).
Proof.
  split.
  - intros a b w. eexists. split; [reflexivity|]. repeat split.
  - split; [reflexivity|]. split; [reflexivity|].
    intros (total & E & _).
    assert (H : lists (snd (__add__ (UTSGRunSummary.mk 0 1 0 0 0 1 0)
                              (UTSGRunSummary.mk 1 1 0 0 0 1 0) two_lists)) 0
                = lists two_lists 0) by (rewrite E; reflexivity).
    vm_compute in H. discriminate H.
Qed.

(** ** C5 *)

(** C5.  [addError] returns, sets gradable=false, score=0.0 and
    scored=true, and sets [shouldStop].  After any later events other than
    [startTestRun], a [stopTestRun] whose bounds are in order returns and
    writes a result whose score is exactly 0.0 and whose gradable is false:
    no score is computed and nothing is clamped. *)
Theorem C5_crash_forces_score_zero :
  forall float_repr final_results_template (test : option loc) (err : SysExceptionType)
         (evs : list event) (w : World),
    let w1 := snd (addError test err w) in
    let w2 := deliver_all float_repr final_results_template evs w1 in
    forallb (fun ev => negb (is_startTestRun ev)) evs = true ->
    (UTSGTestResult._utsg_score_floor (recorder w2)
     <= UTSGTestResult._utsg_score_ceiling (recorder w2))%Q ->
    summable w2 (lists w2 (UTSGTestResult.hidden_tests_info (recorder w2))) = true ->
    summable w2 (lists w2 (UTSGTestResult.visible_tests_info (recorder w2))) = true ->
    fst (addError test err w) = Return tt
    /\ Results.gradable (UTSGTestResult.utsg_results (recorder w1)) = Some false
    /\ Results.score (UTSGTestResult.utsg_results (recorder w1)) = Some 0%Q
    /\ UTSGTestResult.scored (recorder w1) = true
    /\ UTSGTestResult.shouldStop (recorder w1) = true
    /\ exists w3 d,
         stopTestRun float_repr final_results_template w2 = (Return tt, w3)
         /\ result_file w3 = Some d
         /\ Results.score d = Some 0%Q
         /\ Results.gradable d = Some false.
Proof.
  intros fr tmpl test err evs w w1 w2 Hn Hfc Hh Hv.
  destruct (addError_crashes test err w) as [Hr Hc1]. fold w1 in Hc1.
  assert (Hc2 : crashed_state w2) by exact (crashed_deliver_all fr tmpl evs w1 Hn Hc1).
  destruct Hc1 as (Hs1 & Hz1 & Hg1 & Hstop1).
  repeat (split; [assumption|]).
  destruct (stopTestRun_ok fr tmpl w2 (proj2 (Qlt_bool_false _ _) Hfc) Hh Hv)
    as (h & v & t & w3 & _ & E2 & Ef & Es & Eg & _).
  destruct Hc2 as (Hs2 & Hz2 & Hg2 & _).
  exists w3, (UTSGTestResult.utsg_results (recorder w3)).
  split; [exact E2|]. split; [exact Ef|]. split.
  - rewrite Es. unfold final_score, stored_score. rewrite Hs2, Hz2. reflexivity.
  - rewrite Eg. exact Hg2.
Qed.

Lemma C5_witness :
  exists w3 d,
    stopTestRun no_repr no_template
      (deliver_all no_repr no_template [ev_stopTest 0]
         (snd (addError (Some 0) value_error halves_world))) = (Return tt, w3)
    /\ result_file w3 = Some d
    /\ Results.score d = Some 0%Q
    /\ Results.gradable d = Some false.
Proof.
  apply (C5_crash_forces_score_zero no_repr no_template (Some 0) value_error [ev_stopTest 0]
           halves_world).
  - reflexivity.
  - vm_compute. discriminate.
  - reflexivity.
  - reflexivity.
Defined.

(** ** C6 *)

(** A [SkipTest] raised in a sub-test block leaves the scope, but the
    runner records a skip and no error: the recorder is not told to stop
    and the second test runs. *)
Lemma C6_counterexample : ~ other_exception_aborts_the_run no_repr no_tb.
Proof.
  intros H. destruct (H (SkipTest "not today") eq_refl) as [Hs _].
  vm_compute in Hs. discriminate Hs.
Qed.


Lemma quiet_addSkip reason : preserves quiet (addSkip reason).
Proof. intros w H. exact H. Qed.

(** Running a [bind] and a [try] step by step. *)
Lemma bind_Return {A B} (m : M A) (k : A -> M B) w a w1 :
  m w = (Return a, w1) -> bind m k w = k a w1.
Proof. intros E. unfold bind. rewrite E. reflexivity. Qed.


Lemma try_run {A} (m : M A) w o w1 : m w = (o, w1) -> try m w = (Return o, w1).
Proof. intros E. unfold try. rewrite E. reflexivity. Qed.




Lemma returns__log_success t : returns (_log_success t).
Proof.
  unfold _log_success, _log_test_result, modify_info, list_append. repeat rstep.
Qed.

Lemma returns_for_each {A} (body : A -> M unit) l :
  (forall x, returns (body x)) -> returns (for_each body l).
Proof.
  intros Hb. induction l as [|x l IH]; simpl.
  - apply returns_ret.
  - apply returns_bind; [apply Hb | intros _; exact IH].
Qed.

Lemma returns_stopTest_subtest s : returns (stopTest_subtest s).
Proof.
  unfold stopTest_subtest. repeat rstep;
    first [ apply returns__log_success | apply returns__log_failure ].
Qed.





Lemma bind_step {A B} (m : M A) (k : A -> M B) w a w1 r :
  m w = (Return a, w1) -> k a w1 = r -> bind m k w = r.
Proof. intros E1 E2. rewrite (bind_Return _ _ _ _ _ E1). exact E2. Qed.

Lemma try_step {A B} (m : M A) (k : outcome A -> M B) w o w1 r :
  m w = (o, w1) -> k o w1 = r -> bind (try m) k w = r.
Proof. intros E1 E2. rewrite (bind_Return _ _ _ _ _ (try_run _ _ _ _ E1)). exact E2. Qed.







(** ** C7 *)

(** C7.  When the score floor is strictly above the score ceiling,
    [stopTestRun] raises [UngradableError] and leaves the whole store as it
    was: no score is computed, the run is not marked scored, the partitions
    are untouched and no result is written. *)
Theorem C7_floor_above_ceiling_raises_first :
  forall float_repr final_results_template (w : World),
    (UTSGTestResult._utsg_score_ceiling (recorder w)
     < UTSGTestResult._utsg_score_floor (recorder w))%Q ->
    exists message,
      stopTestRun float_repr final_results_template w = (Raise (UngradableError message), w).
Proof.
  intros fr tmpl w H. apply Qlt_bool_true in H.
  unfold stopTestRun, bind, self. simpl. rewrite H. eexists. reflexivity.
Qed.

Lemma C7_witness :
  (UTSGTestResult._utsg_score_ceiling (recorder crossed_bounds_world)
   < UTSGTestResult._utsg_score_floor (recorder crossed_bounds_world))%Q
  /\ exists message,
       stopTestRun no_repr no_template crossed_bounds_world
       = (Raise (UngradableError message), crossed_bounds_world).
Proof.
  split; [vm_compute; reflexivity|].
  apply (C7_floor_above_ceiling_raises_first no_repr no_template crossed_bounds_world).
  vm_compute. reflexivity.
Defined.

(** ** C8 *)

(** C8.  For bounds with floor <= ceiling and every raw score, the clamp of
    [stopTestRun] gives a score between the floor and the ceiling; clamping
    a clamped score gives it back; with floor = ceiling = 0.5 and a raw
    score of 0.2 the result is exactly 0.5; and the score that the scoring
    step of an unscored run stores is this clamp of the ratio of points. *)
Theorem C8_clamp_within_bounds_and_idempotent :
  forall (floor ceiling r : Q) (w : World) (total_results : UTSGRunSummary.t),
    (floor <= ceiling)%Q ->
    (floor <= clamp floor ceiling r <= ceiling)%Q
    /\ clamp floor ceiling (clamp floor ceiling r) = clamp floor ceiling r
    /\ clamp (1 # 2) (1 # 2) (1 # 5) = (1 # 2)
    /\ (UTSGTestResult.scored (recorder w) = false ->
        UTSGTestResult._utsg_score_floor (recorder w) = floor ->
        UTSGTestResult._utsg_score_ceiling (recorder w) = ceiling ->
        fst (score_run total_results w) = Return tt
        /\ Results.score (UTSGTestResult.utsg_results (recorder (snd (score_run total_results w))))
           = Some (clamp floor ceiling (raw_score total_results))).
Proof.
  intros floor ceiling r w t Hfc.
  split; [exact (clamp_bounds floor ceiling r Hfc)|].
  split; [exact (clamp_idempotent floor ceiling r)|].
  split; [reflexivity|].
  intros Hs Hf Hc.
  unfold score_run, bind, self, get_score, set_score, modify_results, modify_self, modify, ret.
  simpl. rewrite Hs. simpl. rewrite Hf, Hc. split; reflexivity.
Qed.

Lemma C8_witness :
  ((1 # 2) <= (1 # 2))%Q
  /\ Results.score
       (UTSGTestResult.utsg_results
          (recorder (snd (score_run (UTSGRunSummary.mk 0 5 5 1 4 5 1) halves_world))))
     = Some (1 # 2).
Proof.
  split; [unfold Qle; simpl; lia|].
  apply (C8_clamp_within_bounds_and_idempotent (1 # 2) (1 # 2) (1 # 5) halves_world
           (UTSGRunSummary.mk 0 5 5 1 4 5 1)).
  - unfold Qle; simpl; lia.
  - reflexivity.
  - reflexivity.
  - reflexivity.
Defined.

(** ** C9 *)

(** C9.  [_log_test_result] files an outcome in the excluded list when
    include_in_results is false, else in the hidden list when hidden is
    true, else in the visible list.  At [stopTestRun] the total summary
    sums max_points and points over the hidden and the visible lists, the
    score is computed from that total, and the tests of the written result
    are the records of the visible list only.  Whatever the excluded list
    holds, the summaries, the score and the tests are the same. *)
Theorem C9_hidden_counts_only_visible_published :
  forall float_repr final_results_template (w : World),
    UTSGTestResult.hidden_tests_info (recorder w)
    <> UTSGTestResult.visible_tests_info (recorder w) ->
    (UTSGTestResult._utsg_score_floor (recorder w)
     <= UTSGTestResult._utsg_score_ceiling (recorder w))%Q ->
    summable w (lists w (UTSGTestResult.hidden_tests_info (recorder w))) = true ->
    summable w (lists w (UTSGTestResult.visible_tests_info (recorder w))) = true ->
    (forall test,
        _log_test_result test w
        = (Return tt,
           set_lists (upd (lists w) (partition_of w test)
                        (lists w (partition_of w test) ++ [test])) w))
    /\ (exists hidden_results visible_results total_results w' d,
         summarize_partitions w
         = (Return (hidden_results, visible_results, total_results), after_add w)
         /\ stopTestRun float_repr final_results_template w = (Return tt, w')
         /\ result_file w' = Some d
         /\ (UTSGRunSummary.points_available total_results
             == sum_max_points w
                  (lists w (UTSGTestResult.hidden_tests_info (recorder w))
                   ++ lists w (UTSGTestResult.visible_tests_info (recorder w))))%Q
         /\ (UTSGRunSummary.points_earned total_results
             == sum_points_earned w
                  (lists w (UTSGTestResult.hidden_tests_info (recorder w))
                   ++ lists w (UTSGTestResult.visible_tests_info (recorder w))))%Q
         /\ Results.score d = Some (final_score w total_results)
         /\ Results.tests d
            = Some (map (fun test => UTSGTestCaseInfo.as_prairielearn_json_dict (infos w test))
                      (lists w (UTSGTestResult.visible_tests_info (recorder w)))))
    /\ (forall xs : list loc,
          UTSGTestResult.excluded_tests_info (recorder w)
          <> UTSGTestResult.hidden_tests_info (recorder w) ->
          UTSGTestResult.excluded_tests_info (recorder w)
          <> UTSGTestResult.visible_tests_info (recorder w) ->
          let wx := with_list (UTSGTestResult.excluded_tests_info (recorder w)) xs w in
          fst (summarize_partitions wx) = fst (summarize_partitions w)
          /\ Results.score
               (UTSGTestResult.utsg_results
                  (recorder (snd (stopTestRun float_repr final_results_template wx))))
             = Results.score
                 (UTSGTestResult.utsg_results
                    (recorder (snd (stopTestRun float_repr final_results_template w))))
          /\ Results.tests
               (UTSGTestResult.utsg_results
                  (recorder (snd (stopTestRun float_repr final_results_template wx))))
             = Results.tests
                 (UTSGTestResult.utsg_results
                    (recorder (snd (stopTestRun float_repr final_results_template w))))).
Proof.
  intros fr tmpl w Hne Hfc Hh Hv. split; [|split].
  - intros test. unfold _log_test_result, partition_of, bind, read_info, self, list_append, modify.
    destruct (negb _); [reflexivity|].
    destruct (UTSGTestCaseInfo.hidden _); reflexivity.
  - destruct (stopTestRun_ok fr tmpl w (proj2 (Qlt_bool_false _ _) Hfc) Hh Hv)
      as (h & v & t & w' & E1 & E2 & Ef & Es & _ & Et & _).
    destruct (summarize_partitions_ok w Hh Hv) as (h' & v' & t' & E1' & _ & Ha & He).
    rewrite E1 in E1'. injection E1' as <- <- <-.
    exists h, v, t, w', (UTSGTestResult.utsg_results (recorder w')).
    repeat (split; [assumption|]).
    rewrite Et. unfold after_add, upd. simpl.
    destruct (Nat.eqb _ _) eqn:E; [|reflexivity].
    apply Nat.eqb_eq in E. congruence.
  - intros xs Hxh Hxv.
    exact (excluded_list_is_not_read fr tmpl w xs Hxh Hxv
             (proj2 (Qlt_bool_false _ _) Hfc) Hh Hv).
Qed.

Lemma C9_witness :
  UTSGTestResult.hidden_tests_info (recorder three_tests_world)
  <> UTSGTestResult.visible_tests_info (recorder three_tests_world)
  /\ exists hidden_results visible_results total_results w' d,
       summarize_partitions three_tests_world
       = (Return (hidden_results, visible_results, total_results), after_add three_tests_world)
       /\ stopTestRun no_repr no_template three_tests_world = (Return tt, w')
       /\ result_file w' = Some d
       /\ (UTSGRunSummary.points_available total_results
           == sum_max_points three_tests_world
                (lists three_tests_world
                   (UTSGTestResult.hidden_tests_info (recorder three_tests_world))
                 ++ lists three_tests_world
                      (UTSGTestResult.visible_tests_info (recorder three_tests_world))))%Q
       /\ (UTSGRunSummary.points_earned total_results
           == sum_points_earned three_tests_world
                (lists three_tests_world
                   (UTSGTestResult.hidden_tests_info (recorder three_tests_world))
                 ++ lists three_tests_world
                      (UTSGTestResult.visible_tests_info (recorder three_tests_world))))%Q
       /\ Results.score d = Some (final_score three_tests_world total_results)
       /\ Results.tests d
          = Some (map (fun test =>
                         UTSGTestCaseInfo.as_prairielearn_json_dict (infos three_tests_world test))
                    (lists three_tests_world
                       (UTSGTestResult.visible_tests_info (recorder three_tests_world)))).
Proof.
  split; [vm_compute; discriminate|].
  apply (C9_hidden_counts_only_visible_published no_repr no_template three_tests_world).
  - vm_compute. discriminate.
  - vm_compute. discriminate.
  - reflexivity.
  - reflexivity.
Defined.

(** ** C10 *)

(** C10.  [addUnexpectedSuccess] returns, sets gradable=false and
    [shouldStop], and leaves the scored flag and the score as they were.
    On a run not scored before, the following [stopTestRun] computes the
    clamped ratio of points and writes it next to gradable=false; after the
    run of one test case worth one point that passes although it is marked
    as an expected failure, the written score is 1 and gradable is false. *)
Theorem C10_unexpected_success_is_still_scored :
  forall float_repr final_results_template (test : loc) (w : World),
    let w1 := snd (addUnexpectedSuccess test w) in
    UTSGTestResult.scored (recorder w) = false ->
    (UTSGTestResult._utsg_score_floor (recorder w)
     <= UTSGTestResult._utsg_score_ceiling (recorder w))%Q ->
    summable w (lists w (UTSGTestResult.hidden_tests_info (recorder w))) = true ->
    summable w (lists w (UTSGTestResult.visible_tests_info (recorder w))) = true ->
    fst (addUnexpectedSuccess test w) = Return tt
    /\ Results.gradable (UTSGTestResult.utsg_results (recorder w1)) = Some false
    /\ UTSGTestResult.shouldStop (recorder w1) = true
    /\ UTSGTestResult.scored (recorder w1) = false
    /\ Results.score (UTSGTestResult.utsg_results (recorder w1))
       = Results.score (UTSGTestResult.utsg_results (recorder w))
    /\ (exists hidden_results visible_results total_results w2 d,
          summarize_partitions w1
          = (Return (hidden_results, visible_results, total_results), after_add w1)
          /\ stopTestRun float_repr final_results_template w1 = (Return tt, w2)
          /\ result_file w2 = Some d
          /\ Results.gradable d = Some false
          /\ Results.score d
             = Some (clamp (UTSGTestResult._utsg_score_floor (recorder w))
                       (UTSGTestResult._utsg_score_ceiling (recorder w))
                       (raw_score total_results)))
    /\ (exists w2 d,
          stopTestRun float_repr final_results_template unexpected_success_world
          = (Return tt, w2)
          /\ result_file w2 = Some d
          /\ Results.gradable d = Some false
          /\ Results.score d = Some 1%Q).
Proof.
  intros fr tmpl test w w1 Hs Hfc Hh Hv.
  assert (Hw1 : fst (addUnexpectedSuccess test w) = Return tt
                /\ infos w1 = infos w /\ lists w1 = lists w
                /\ Results.gradable (UTSGTestResult.utsg_results (recorder w1)) = Some false
                /\ UTSGTestResult.shouldStop (recorder w1) = true
                /\ UTSGTestResult.scored (recorder w1) = UTSGTestResult.scored (recorder w)
                /\ Results.score (UTSGTestResult.utsg_results (recorder w1))
                   = Results.score (UTSGTestResult.utsg_results (recorder w))
                /\ UTSGTestResult._utsg_score_floor (recorder w1)
                   = UTSGTestResult._utsg_score_floor (recorder w)
                /\ UTSGTestResult._utsg_score_ceiling (recorder w1)
                   = UTSGTestResult._utsg_score_ceiling (recorder w)
                /\ UTSGTestResult.hidden_tests_info (recorder w1)
                   = UTSGTestResult.hidden_tests_info (recorder w)
                /\ UTSGTestResult.visible_tests_info (recorder w1)
                   = UTSGTestResult.visible_tests_info (recorder w)).
  { subst w1.
    unfold addUnexpectedSuccess, super_failfast, bind, set_gradable, set_message, stop,
      modify_results, modify_self, modify, read_case, read_info, self, ret.
    simpl. destruct (UTSGTestResult.failfast (recorder w)); repeat split. }
  destruct Hw1 as (Hr & Hi & Hl & Hg & Hstop & Hsc & Hscore & Hf & Hc & Hhid & Hvis).
  split; [exact Hr|]. split; [exact Hg|]. split; [exact Hstop|].
  split; [rewrite Hsc; exact Hs|]. split; [exact Hscore|]. split.
  - assert (Hh1 : summable w1 (lists w1 (UTSGTestResult.hidden_tests_info (recorder w1))) = true).
    { unfold summable in *. rewrite Hi, Hl, Hhid. exact Hh. }
    assert (Hv1 : summable w1 (lists w1 (UTSGTestResult.visible_tests_info (recorder w1))) = true).
    { unfold summable in *. rewrite Hi, Hl, Hvis. exact Hv. }
    assert (Hfc1 : Qlt_bool (UTSGTestResult._utsg_score_ceiling (recorder w1))
                     (UTSGTestResult._utsg_score_floor (recorder w1)) = false).
    { rewrite Hf, Hc. apply Qlt_bool_false. exact Hfc. }
    destruct (stopTestRun_ok fr tmpl w1 Hfc1 Hh1 Hv1)
      as (h & v & t & w2 & E1 & E2 & Ef & Es & Eg & _).
    exists h, v, t, w2, (UTSGTestResult.utsg_results (recorder w2)).
    split; [exact E1|]. split; [exact E2|]. split; [exact Ef|].
    split; [rewrite Eg; exact Hg|].
    rewrite Es. unfold final_score. rewrite Hsc, Hs, Hf, Hc. reflexivity.
  - eexists _, _. split; [vm_compute; reflexivity|]. vm_compute. repeat split.
Qed.

Lemma C10_witness :
  UTSGTestResult.scored (recorder passed_world) = false
  /\ exists w2 d,
       stopTestRun no_repr no_template unexpected_success_world = (Return tt, w2)
       /\ result_file w2 = Some d
       /\ Results.gradable d = Some false
       /\ Results.score d = Some 1%Q.
Proof.
  split; [reflexivity|].
  apply (C10_unexpected_success_is_still_scored no_repr no_template 0 passed_world).
  - reflexivity.
  - vm_compute. discriminate.
  - reflexivity.
  - reflexivity.
Defined.

(** * Further properties *)

(** ** The score bounds, again *)



(** ** Points and messages that are set are never replaced *)

Lemma upd_other {A : Type} (f : loc -> A) l l' v : l' <> l -> upd f l v l' = f l'.
Proof. intros H. unfold upd. apply Nat.eqb_neq in H. rewrite H. reflexivity. Qed.

Lemma points_fixed_modify_info l p l' f :
  (forall i, UTSGTestCaseInfo.points (f i) = UTSGTestCaseInfo.points i) ->
  preserves (points_fixed l p) (modify_info l' f).
Proof.
  intros Hf w [Hl Hp]. unfold modify_info, modify, points_fixed. simpl.
  split; [exact Hl|]. unfold upd. destruct (Nat.eqb l l') eqn:E; [|exact Hp].
  apply Nat.eqb_eq in E. subst l'. rewrite Hf. exact Hp.
Qed.

Lemma points_fixed_alloc_info l p i : preserves (points_fixed l p) (alloc_info i).
Proof.
  intros w [Hl Hp]. unfold alloc_info, points_fixed. simpl. split; [lia|].
  rewrite upd_other; [exact Hp | lia].
Qed.

(** The steps of [_log_failure] and [_log_success], laid open. *)
Ltac open_log :=
  unfold _log_failure, _log_success, _log_test_result, bind, modify_info, modify, read_info,
    self, list_append, ret;
  simpl; rewrite ?upd_same; simpl.

Ltac split_ifs :=
  repeat match goal with
         | |- context [if ?b then _ else _] => destruct b; simpl
         end.

Lemma points_fixed__log_failure l p t : preserves (points_fixed l p) (_log_failure t).
Proof.
  intros w [Hl Hp]. unfold points_fixed. open_log.
  destruct (Nat.eq_dec l t) as [->|Hne].
  - rewrite Hp. simpl. rewrite ?upd_same. simpl.
    destruct (UTSGTestCaseInfo.message (infos w t)); simpl; rewrite ?upd_same; simpl;
      split_ifs; rewrite ?upd_same; simpl; split; assumption.
  - destruct (UTSGTestCaseInfo.points (infos w t)); simpl; rewrite ?upd_same; simpl;
      destruct (UTSGTestCaseInfo.message (infos w t)); simpl; rewrite ?upd_same; simpl;
      split_ifs; rewrite ?upd_other by assumption; split; assumption.
Qed.

Lemma points_fixed__log_success l p t : preserves (points_fixed l p) (_log_success t).
Proof.
  intros w [Hl Hp]. unfold points_fixed. open_log.
  destruct (Nat.eq_dec l t) as [->|Hne].
  - rewrite Hp. simpl. rewrite ?upd_same. simpl.
    destruct (UTSGTestCaseInfo.message (infos w t)); simpl; rewrite ?upd_same; simpl;
      split_ifs; rewrite ?upd_same; simpl; split; assumption.
  - destruct (UTSGTestCaseInfo.points (infos w t)); simpl; rewrite ?upd_same; simpl;
      destruct (UTSGTestCaseInfo.message (infos w t)); simpl; rewrite ?upd_same; simpl;
      split_ifs; rewrite ?upd_other by assumption; split; assumption.
Qed.

Lemma message_fixed_modify_info l m l' f :
  (forall i, UTSGTestCaseInfo.message (f i) = UTSGTestCaseInfo.message i) ->
  preserves (message_fixed l m) (modify_info l' f).
Proof.
  intros Hf w [Hl Hp]. unfold modify_info, modify, message_fixed. simpl.
  split; [exact Hl|]. unfold upd. destruct (Nat.eqb l l') eqn:E; [|exact Hp].
  apply Nat.eqb_eq in E. subst l'. rewrite Hf. exact Hp.
Qed.

Lemma message_fixed_alloc_info l m i : preserves (message_fixed l m) (alloc_info i).
Proof.
  intros w [Hl Hp]. unfold alloc_info, message_fixed. simpl. split; [lia|].
  rewrite upd_other; [exact Hp | lia].
Qed.

Lemma message_fixed__log_failure l m t : preserves (message_fixed l m) (_log_failure t).
Proof.
  intros w [Hl Hp]. unfold message_fixed. open_log.
  destruct (Nat.eq_dec l t) as [->|Hne].
  - destruct (UTSGTestCaseInfo.points (infos w t)); simpl; rewrite ?upd_same; simpl;
      rewrite Hp; simpl; split_ifs; rewrite ?upd_same; simpl; split; assumption.
  - destruct (UTSGTestCaseInfo.points (infos w t)); simpl; rewrite ?upd_same; simpl;
      destruct (UTSGTestCaseInfo.message (infos w t)); simpl; rewrite ?upd_same; simpl;
      split_ifs; rewrite ?upd_other by assumption; split; assumption.
Qed.

Lemma message_fixed__log_success l m t : preserves (message_fixed l m) (_log_success t).
Proof.
  intros w [Hl Hp]. unfold message_fixed. open_log.
  destruct (Nat.eq_dec l t) as [->|Hne].
  - destruct (UTSGTestCaseInfo.points (infos w t)); simpl; rewrite ?upd_same; simpl;
      rewrite Hp; simpl; split_ifs; rewrite ?upd_same; simpl; split; assumption.
  - destruct (UTSGTestCaseInfo.points (infos w t)); simpl; rewrite ?upd_same; simpl;
      destruct (UTSGTestCaseInfo.message (infos w t)); simpl; rewrite ?upd_same; simpl;
      split_ifs; rewrite ?upd_other by assumption; split; assumption.
Qed.

Ltac fixed_leaf :=
  first [ apply points_fixed__log_failure
        | apply points_fixed__log_success
        | apply message_fixed__log_failure
        | apply message_fixed__log_success
        | apply points_fixed_alloc_info
        | apply message_fixed_alloc_info
        | apply points_fixed_modify_info; intros ?; reflexivity
        | apply message_fixed_modify_info; intros ?; reflexivity
        | apply preserves_post_init_loop
        | apply preserves_first_crashed
        | (intros ? ?; assumption) ].

Ltac fixed_step :=
  lazymatch goal with
  | |- preserves _ (_log_failure _) => fail
  | |- preserves _ (_log_success _) => fail
  | _ => pstep
  end.

Ltac fixed_tac := repeat fixed_step; fixed_leaf.

Ltac fixed_deliver :=
  let ev := fresh "ev" in
  intros ev; destruct ev; unfold deliver;
  [ unfold startTestRun
  | unfold stopTestRun, summarize_partitions, UTSGRunSummary_new, __post_init__, __add__,
      score_run, get_score, get_message, set_message, dump_results
  | unfold startTest, set_utsg_score_floor, set_utsg_score_ceiling
  | unfold stopTest, stopTest_subtest, set_message, set_output
  | unfold addError, get_output, set_output
  | unfold addFailure
  | unfold addSuccess
  | unfold addExpectedFailure
  | unfold addUnexpectedSuccess, set_message
  | unfold addSubTest
  | unfold UTSGTestCase_init
  | unfold add_graded_subTest
  | unfold __enter__
  | unfold __exit__, subtest_context_manager___exit__, addSubTest ];
  fixed_tac.

Lemma points_fixed_deliver float_repr final_results_template l p :
  forall ev, preserves (points_fixed l p) (deliver float_repr final_results_template ev).
Proof. fixed_deliver. Qed.

Lemma message_fixed_deliver float_repr final_results_template l m :
  forall ev, preserves (message_fixed l m) (deliver float_repr final_results_template ev).
Proof. fixed_deliver. Qed.

Lemma preserves_deliver_all float_repr final_results_template (P : World -> Prop) :
  (forall ev, preserves P (deliver float_repr final_results_template ev)) ->
  forall evs w, P w -> P (deliver_all float_repr final_results_template evs w).
Proof.
  intros H evs. induction evs as [|ev evs IH]; intros w Hw; simpl; [exact Hw|].
  apply IH. exact (H ev w Hw).
Qed.

(** X3.  Points and a message that an outcome already has are never
    replaced: whatever recorder and scope operations follow (among them
    [_log_success] and [_log_failure], which only fill in what is missing),
    the outcome keeps them. *)
Theorem X3_set_points_and_message_are_kept :
  forall float_repr final_results_template (evs : list event) (w : World) (l : loc),
    l < next_info w ->
    (forall p, UTSGTestCaseInfo.points (infos w l) = Some p ->
               UTSGTestCaseInfo.points
                 (infos (deliver_all float_repr final_results_template evs w) l) = Some p)
    /\ (forall m, UTSGTestCaseInfo.message (infos w l) = Some m ->
                  UTSGTestCaseInfo.message
                    (infos (deliver_all float_repr final_results_template evs w) l) = Some m).
Proof.
  intros fr tmpl evs w l Hl. split.
  - intros p Hp.
    exact (proj2 (preserves_deliver_all fr tmpl (points_fixed l p)
                    (points_fixed_deliver fr tmpl l p) evs w (conj Hl Hp))).
  - intros m Hm.
    exact (proj2 (preserves_deliver_all fr tmpl (message_fixed l m)
                    (message_fixed_deliver fr tmpl l m) evs w (conj Hl Hm))).
Qed.
Lemma X3_witness :
  UTSGTestCaseInfo.points
    (infos (deliver_all no_repr no_template
              [ev_addFailure 0 value_error; ev_stopTest 0; ev_stopTestRun]
              explicit_points_world) 0) = Some (7 # 1).
Proof.
  refine (proj1 (X3_set_points_and_message_are_kept no_repr no_template
                   [ev_addFailure 0 value_error; ev_stopTest 0; ev_stopTestRun]
                   explicit_points_world 0 _) (7 # 1) _).
  - vm_compute. lia.
  - reflexivity.
Defined.

(** ** What [addSuccess] and [addFailure] leave behind *)

(** X4.  [addSuccess] returns and leaves the outcome of the test PASSED,
    with its own points if it had some and max_points otherwise, with its
    own message if it had one and "Passed <name>" otherwise, and filed once,
    at the end of the list that its include_in_results and hidden flags
    select; no other list changes.  [addFailure] does the same with FAILED,
    minus points_lost_on_failure and "Failed <name>". *)
Theorem X4_defaults_on_success_and_failure :
  forall (test : loc) (err : SysExceptionType) (w : World),
    let l := UTSGTestCase.utsg_test_case_info (cases w test) in
    let i := infos w l in
    (exists w',
        addSuccess test w = (Return tt, w')
        /\ UTSGTestCaseInfo._status (infos w' l) = PASSED
        /\ UTSGTestCaseInfo.points (infos w' l)
           = Some (match UTSGTestCaseInfo.points i with
                   | Some p => p
                   | None => UTSGTestCaseInfo.max_points i
                   end)
        /\ UTSGTestCaseInfo.message (infos w' l)
           = Some (match UTSGTestCaseInfo.message i with
                   | Some m => m
                   | None => "Passed " +:+ UTSGTestCaseInfo.name i
                   end)
        /\ lists w' (partition_of w l) = lists w (partition_of w l) ++ [l]
        /\ (forall k, k <> partition_of w l -> lists w' k = lists w k))
    /\ (exists w',
           addFailure test err w = (Return tt, w')
           /\ UTSGTestCaseInfo._status (infos w' l) = FAILED
           /\ UTSGTestCaseInfo.points (infos w' l)
              = Some (match UTSGTestCaseInfo.points i with
                      | Some p => p
                      | None => (- UTSGTestCaseInfo.points_lost_on_failure i)%Q
                      end)
           /\ UTSGTestCaseInfo.message (infos w' l)
              = Some (match UTSGTestCaseInfo.message i with
                      | Some m => m
                      | None => "Failed " +:+ UTSGTestCaseInfo.name i
                      end)
           /\ lists w' (partition_of w l) = lists w (partition_of w l) ++ [l]
           /\ (forall k, k <> partition_of w l -> lists w' k = lists w k)).
Proof.
  intros test err w l i. subst i.
  split;
    [ unfold addSuccess, bind at 1, read_case
    | unfold addFailure, super_failfast, stop, modify_self, modify, self, ret;
      unfold bind at 1; unfold bind at 1; cbv beta iota;
      destruct (UTSGTestResult.failfast (recorder w)); cbv beta iota;
      unfold bind at 1, read_case; cbv beta iota ];
    simpl cases; fold l; generalize l; clear l;
    intros l; unfold partition_of; open_log;
    destruct (UTSGTestCaseInfo.points (infos w l)) eqn:Ep; simpl; rewrite ?upd_same; simpl;
    destruct (UTSGTestCaseInfo.message (infos w l)) eqn:Em; simpl; rewrite ?upd_same; simpl;
    destruct (UTSGTestCaseInfo.include_in_results (infos w l)); simpl;
    try destruct (UTSGTestCaseInfo.hidden (infos w l)); simpl;
    eexists; (split; [reflexivity|]); simpl; rewrite ?upd_same; simpl;
    repeat split; try assumption; intros k Hk; apply upd_other; exact Hk.
Qed.
(** ** The counters of a summary *)

Lemma post_init_step_counts (w : World) (acc : UTSGRunSummary.t) (t : loc) :
  summable w [t] = true ->
  exists s, __post_init___step acc t w = (Return s, w)
    /\ UTSGRunSummary.num_tests_available s = S (UTSGRunSummary.num_tests_available acc)
    /\ UTSGRunSummary.num_tests_ran s
       = UTSGRunSummary.num_tests_ran acc + count_status terminal w [t]
    /\ UTSGRunSummary.num_tests_passed s
       = UTSGRunSummary.num_tests_passed acc
         + count_status (fun st => UTSGTestStatus_eqb st PASSED) w [t]
    /\ UTSGRunSummary.num_tests_failed s
       = UTSGRunSummary.num_tests_failed acc
         + count_status (fun st => UTSGTestStatus_eqb st FAILED) w [t].
Proof.
  unfold summable, __post_init___step, count_status, terminal, completed, bind, read_info, ret,
    raise.
  simpl. rewrite andb_true_r.
  destruct (UTSGTestCaseInfo._status (infos w t)); simpl;
    destruct (UTSGTestCaseInfo.points (infos w t)); simpl; intros H;
    try discriminate; eexists; (split; [reflexivity|]); simpl; repeat split; lia.
Qed.

Lemma count_status_cons p w t ts :
  count_status p w (t :: ts) = count_status p w [t] + count_status p w ts.
Proof.
  unfold count_status. simpl. destruct (p _); simpl; reflexivity.
Qed.

Lemma post_init_loop_counts (w : World) (ts : list loc) : forall acc,
  summable w ts = true ->
  exists s, __post_init___loop acc ts w = (Return s, w)
    /\ UTSGRunSummary.num_tests_available s
       = UTSGRunSummary.num_tests_available acc + length ts
    /\ UTSGRunSummary.num_tests_ran s
       = UTSGRunSummary.num_tests_ran acc + count_status terminal w ts
    /\ UTSGRunSummary.num_tests_passed s
       = UTSGRunSummary.num_tests_passed acc
         + count_status (fun st => UTSGTestStatus_eqb st PASSED) w ts
    /\ UTSGRunSummary.num_tests_failed s
       = UTSGRunSummary.num_tests_failed acc
         + count_status (fun st => UTSGTestStatus_eqb st FAILED) w ts.
Proof.
  induction ts as [|t ts IH]; intros acc H.
  - exists acc. unfold count_status. simpl. repeat split; lia.
  - simpl in H. apply andb_true_iff in H as [Ht Hts].
    destruct (post_init_step_counts w acc t) as (s1 & E1 & A1 & R1 & P1 & F1).
    { simpl. rewrite Ht. reflexivity. }
    destruct (IH s1 Hts) as (s & E & A & R & P & F).
    exists s. simpl. unfold bind at 1. rewrite E1, E.
    rewrite !(count_status_cons _ w t ts). simpl length.
    repeat split; lia.
Qed.

Lemma post_init_loop_raises (w : World) (ts : list loc) : forall acc,
  summable w ts = false ->
  exists message, __post_init___loop acc ts w = (Raise (TypeError message), w).
Proof.
  induction ts as [|t ts IH]; intros acc H; [discriminate|].
  simpl in H. simpl. unfold bind at 1.
  destruct (implb _ _) eqn:Et.
  - simpl in H. destruct (post_init_step_counts w acc t) as (s1 & E1 & _).
    { simpl. rewrite Et. reflexivity. }
    rewrite E1. apply IH. exact H.
  - clear H. unfold __post_init___step, bind, read_info, ret, raise.
    unfold completed in Et. simpl.
    destruct (UTSGTestCaseInfo._status (infos w t)); simpl in *;
      destruct (UTSGTestCaseInfo.points (infos w t)); simpl in *;
      try discriminate; eexists; reflexivity.
Qed.

Lemma count_status_le p w ts : count_status p w ts <= length ts.
Proof. unfold count_status. apply List.filter_length_le. Qed.

Lemma count_passed_failed_le_terminal w ts :
  count_status (fun st => UTSGTestStatus_eqb st PASSED) w ts
  + count_status (fun st => UTSGTestStatus_eqb st FAILED) w ts
  <= count_status terminal w ts.
Proof.
  induction ts as [|t ts IH]; [unfold count_status; simpl; lia|].
  rewrite !(count_status_cons _ w t ts).
  assert (count_status (fun st => UTSGTestStatus_eqb st PASSED) w [t]
          + count_status (fun st => UTSGTestStatus_eqb st FAILED) w [t]
          <= count_status terminal w [t]).
  { unfold count_status, terminal, completed. simpl.
    destruct (UTSGTestCaseInfo._status (infos w t)); simpl; lia. }
  lia.
Qed.

(** X5.  Building a summary over a list reads the store only.  When every
    PASSED or FAILED outcome of the list has points, it returns: available
    is the length of the list, ran counts the PASSED, FAILED and CRASHED
    outcomes, passed and failed count their own status, so that
    passed + failed <= ran <= available.  When some PASSED or FAILED outcome
    has no points, it raises [TypeError]. *)
Theorem X5_summary_counters :
  forall (tests : loc) (w : World),
    (summable w (lists w tests) = true ->
     exists s,
       UTSGRunSummary_new tests w = (Return s, w)
       /\ UTSGRunSummary.num_tests_available s = length (lists w tests)
       /\ UTSGRunSummary.num_tests_ran s = count_status terminal w (lists w tests)
       /\ UTSGRunSummary.num_tests_passed s
          = count_status (fun st => UTSGTestStatus_eqb st PASSED) w (lists w tests)
       /\ UTSGRunSummary.num_tests_failed s
          = count_status (fun st => UTSGTestStatus_eqb st FAILED) w (lists w tests)
       /\ UTSGRunSummary.num_tests_passed s + UTSGRunSummary.num_tests_failed s
          <= UTSGRunSummary.num_tests_ran s
       /\ UTSGRunSummary.num_tests_ran s <= UTSGRunSummary.num_tests_available s)
    /\ (summable w (lists w tests) = false ->
        exists message, UTSGRunSummary_new tests w = (Raise (TypeError message), w)).
Proof.
  intros tests w. unfold UTSGRunSummary_new, __post_init__, bind, read_list. simpl. split.
  - intros H.
    destruct (post_init_loop_counts w (lists w tests) (UTSGRunSummary.mk tests 0 0 0 0 0 0) H)
      as (s & E & A & R & P & F).
    simpl in A, R, P, F. exists s. rewrite E, A, R, P, F.
    repeat split.
    + apply count_passed_failed_le_terminal.
    + apply count_status_le.
  - intros H. exact (post_init_loop_raises w (lists w tests) _ H).
Qed.

Lemma X5_witness :
  exists s,
    UTSGRunSummary_new 0 crashed_world = (Return s, crashed_world)
    /\ UTSGRunSummary.num_tests_available s = length (lists crashed_world 0)
    /\ UTSGRunSummary.num_tests_ran s = count_status terminal crashed_world (lists crashed_world 0)
    /\ UTSGRunSummary.num_tests_passed s
       = count_status (fun st => UTSGTestStatus_eqb st PASSED) crashed_world
           (lists crashed_world 0)
    /\ UTSGRunSummary.num_tests_failed s
       = count_status (fun st => UTSGTestStatus_eqb st FAILED) crashed_world
           (lists crashed_world 0)
    /\ UTSGRunSummary.num_tests_passed s + UTSGRunSummary.num_tests_failed s
       <= UTSGRunSummary.num_tests_ran s
    /\ UTSGRunSummary.num_tests_ran s <= UTSGRunSummary.num_tests_available s.
Proof.
  apply (X5_summary_counters 0 crashed_world). reflexivity.
Defined.
(** ** A sum of summaries against a summary of the joined list *)


Lemma summable_app w a b : summable w (a ++ b) = summable w a && summable w b.
Proof. unfold summable. apply forallb_app. Qed.

Lemma summable_infos w1 w2 ts : infos w1 = infos w2 -> summable w1 ts = summable w2 ts.
Proof. intros H. unfold summable. rewrite H. reflexivity. Qed.



(** ** [stopTestRun] a second time *)

Lemma stopTestRun_same_configuration float_repr final_results_template r :
  preserves (same_configuration r) (stopTestRun float_repr final_results_template).
Proof.
  unfold stopTestRun, summarize_partitions, UTSGRunSummary_new, __post_init__, __add__,
    score_run, get_score, get_message, set_message, dump_results.
  repeat pstep;
    first [ apply preserves_post_init_loop | (intros ? ?; assumption) ].
Qed.

(** X7.  Scoring happens once.  When [stopTestRun] has returned, a second
    [stopTestRun] returns as well and stores and writes the same score, the
    same gradable flag and the same tests.  The recorder's own lists are not
    the same: each call appends the visible tests to the hidden list. *)
Theorem X7_second_stopTestRun_keeps_the_score :
  forall float_repr final_results_template (w : World),
    UTSGTestResult.hidden_tests_info (recorder w)
    <> UTSGTestResult.visible_tests_info (recorder w) ->
    (UTSGTestResult._utsg_score_floor (recorder w)
     <= UTSGTestResult._utsg_score_ceiling (recorder w))%Q ->
    summable w (lists w (UTSGTestResult.hidden_tests_info (recorder w))) = true ->
    summable w (lists w (UTSGTestResult.visible_tests_info (recorder w))) = true ->
    exists w1 w2 d1 d2,
      stopTestRun float_repr final_results_template w = (Return tt, w1)
      /\ stopTestRun float_repr final_results_template w1 = (Return tt, w2)
      /\ result_file w1 = Some d1
      /\ result_file w2 = Some d2
      /\ Results.score d2 = Results.score d1
      /\ Results.gradable d2 = Results.gradable d1
      /\ Results.tests d2 = Results.tests d1
      /\ lists w2 (UTSGTestResult.visible_tests_info (recorder w))
         = lists w (UTSGTestResult.visible_tests_info (recorder w))
      /\ lists w2 (UTSGTestResult.hidden_tests_info (recorder w))
         = (lists w (UTSGTestResult.hidden_tests_info (recorder w))
            ++ lists w (UTSGTestResult.visible_tests_info (recorder w)))
           ++ lists w (UTSGTestResult.visible_tests_info (recorder w)).
Proof.
  intros fr tmpl w Hne Hfc Hh Hv.
  set (hid := UTSGTestResult.hidden_tests_info (recorder w)) in *.
  set (vis := UTSGTestResult.visible_tests_info (recorder w)) in *.
  assert (Hg := proj2 (Qlt_bool_false _ _) Hfc).
  destruct (stopTestRun_ok fr tmpl w Hg Hh Hv)
    as (h & v & t & w1 & _ & E1 & Ef1 & Es1 & Eg1 & Et1 & Ei1 & El1 & Esc1 & _).
  assert (Hcfg : same_configuration (recorder w) w1).
  { assert (H := stopTestRun_same_configuration fr tmpl (recorder w) w).
    rewrite E1 in H. apply H. repeat split. }
  destruct Hcfg as (Cf & Cc & Cv & Ch & _). fold vis in Cv. fold hid in Ch.
  assert (Lh : lists w1 hid = lists w hid ++ lists w vis).
  { rewrite El1. unfold after_add. fold hid vis. simpl. apply upd_same. }
  assert (Lv : lists w1 vis = lists w vis).
  { rewrite El1. unfold after_add. fold hid vis. simpl. apply upd_other. congruence. }
  assert (Hh1 : summable w1 (lists w1 (UTSGTestResult.hidden_tests_info (recorder w1))) = true).
  { rewrite Ch, Lh, (summable_infos w1 w _ Ei1), summable_app, Hh, Hv. reflexivity. }
  assert (Hv1 : summable w1 (lists w1 (UTSGTestResult.visible_tests_info (recorder w1))) = true).
  { rewrite Cv, Lv, (summable_infos w1 w _ Ei1). exact Hv. }
  assert (Hg1 : Qlt_bool (UTSGTestResult._utsg_score_ceiling (recorder w1))
                  (UTSGTestResult._utsg_score_floor (recorder w1)) = false).
  { rewrite Cf, Cc. exact Hg. }
  destruct (stopTestRun_ok fr tmpl w1 Hg1 Hh1 Hv1)
    as (h2 & v2 & t2 & w2 & _ & E2 & Ef2 & Es2 & Eg2 & Et2 & Ei2 & El2 & _).
  exists w1, w2, (UTSGTestResult.utsg_results (recorder w1)),
    (UTSGTestResult.utsg_results (recorder w2)).
  split; [exact E1|]. split; [exact E2|]. split; [exact Ef1|]. split; [exact Ef2|].
  assert (Lh2 : lists w2 hid = (lists w hid ++ lists w vis) ++ lists w vis).
  { rewrite El2. unfold after_add. rewrite Ch, Cv. simpl. rewrite upd_same, Lh, Lv.
    reflexivity. }
  assert (Lv2 : lists w2 vis = lists w vis).
  { rewrite El2. unfold after_add. rewrite Ch, Cv. simpl.
    rewrite upd_other by congruence. exact Lv. }
  split.
  { rewrite Es2. unfold final_score, stored_score. rewrite Esc1, Es1. reflexivity. }
  split; [exact Eg2|].
  split.
  { rewrite Et2, Et1. rewrite Cv. fold vis.
    replace (lists (after_add w1) vis) with (lists w vis) by (rewrite <- El2; symmetry; exact Lv2).
    replace (lists (after_add w) vis) with (lists w vis) by (rewrite <- El1; symmetry; exact Lv).
    rewrite Ei1. reflexivity. }
  split; [exact Lv2 | exact Lh2].
Qed.

Lemma X7_witness :
  exists w1 w2 d1 d2,
    stopTestRun no_repr no_template three_tests_world = (Return tt, w1)
    /\ stopTestRun no_repr no_template w1 = (Return tt, w2)
    /\ result_file w1 = Some d1
    /\ result_file w2 = Some d2
    /\ Results.score d2 = Results.score d1
    /\ Results.gradable d2 = Results.gradable d1
    /\ Results.tests d2 = Results.tests d1
    /\ lists w2 (UTSGTestResult.visible_tests_info (recorder three_tests_world))
       = lists three_tests_world (UTSGTestResult.visible_tests_info (recorder three_tests_world))
    /\ lists w2 (UTSGTestResult.hidden_tests_info (recorder three_tests_world))
       = (lists three_tests_world (UTSGTestResult.hidden_tests_info (recorder three_tests_world))
          ++ lists three_tests_world
               (UTSGTestResult.visible_tests_info (recorder three_tests_world)))
         ++ lists three_tests_world
              (UTSGTestResult.visible_tests_info (recorder three_tests_world)).
Proof.
  apply (X7_second_stopTestRun_keeps_the_score no_repr no_template three_tests_world).
  - vm_compute. discriminate.
  - vm_compute. discriminate.
  - reflexivity.
  - reflexivity.
Defined.
(** ** [run_tests] and the result file *)

Lemma ensures_bind {A B} (m : M A) (k : A -> M B) Q :
  (forall a, ensures (k a) Q) -> ensures (bind m k) Q.
Proof.
  intros Hk w b w' E. unfold bind in E.
  destruct (m w) as [[a|e] w1]; [exact (Hk a w1 b w' E) | discriminate].
Qed.

Lemma ensures_raise {A} e Q : ensures (@raise A e) Q.
Proof. intros w a w' E. discriminate. Qed.

Lemma ensures_dump_results : ensures dump_results file_written.
Proof.
  intros w a w' E. unfold dump_results, bind, self, modify in E.
  injection E as _ <-. reflexivity.
Qed.

Lemma stopTestRun_writes float_repr final_results_template :
  ensures (stopTestRun float_repr final_results_template) file_written.
Proof.
  unfold stopTestRun. apply ensures_bind. intros r.
  destruct (Qlt_bool _ _); [apply ensures_raise|].
  apply ensures_bind. intros [[h v] t].
  do 8 (apply ensures_bind; intros ?).
  apply ensures_dump_results.
Qed.

(** X8.  [run_tests] turns every [Exception] into a result file, writing
    taken to succeed.  When the run returns, [run_tests] returns and the
    file holds the recorder's results, as [stopTestRun] wrote them.  When
    starting the run, the suite or [stopTestRun] raises an [Exception],
    [run_tests] returns as well, and the file holds the recorder's results
    with gradable=false, score=0.0 and as output the message of the
    [UngradableError], or the traceback of any other exception.  A
    [KeyboardInterrupt] or a [SystemExit] meets no handler: nothing more is
    written and [run_tests] raises, that exception when there is a result
    file and the [FileNotFoundError] of its [finally] when there is
    none. *)
Theorem X8_run_tests_writes_a_result_for_every_Exception :
  forall float_repr final_results_template format_tb (tests : list (M unit)) (w : World),
    let w0 := snd (UTSGTestResult_init w) in
    let r := (startTestRun ;; TestSuite_run tests ;;
              stopTestRun float_repr final_results_template) w0 in
    match fst r with
    | Return _ =>
        run_tests float_repr final_results_template format_tb tests w = (Return tt, snd r)
        /\ result_file (snd r) = Some (UTSGTestResult.utsg_results (recorder (snd r)))
    | Raise e =>
        if is_Exception e then
          exists w' d,
            run_tests float_repr final_results_template format_tb tests w = (Return tt, w')
            /\ result_file w' = Some d
            /\ d = UTSGTestResult.utsg_results (recorder w')
            /\ Results.gradable d = Some false
            /\ Results.score d = Some 0%Q
            /\ Results.output d = Some (match e with
                                        | UngradableError message => message
                                        | _ => format_tb e
                                        end)
        else
          run_tests float_repr final_results_template format_tb tests w
          = (Raise (match result_file (snd r) with
                    | Some _ => e
                    | None => OtherException "<class 'FileNotFoundError'>"
                                "[Errno 2] No such file or directory"
                    end), snd r)
    end.
Proof.
  intros fr tmpl ft tests w w0 r.
  assert (Hens : ensures (startTestRun ;; TestSuite_run tests ;; stopTestRun fr tmpl)
                   file_written).
  { apply ensures_bind. intros _. apply ensures_bind. intros _. apply stopTestRun_writes. }
  unfold run_tests. unfold bind at 1.
  change (UTSGTestResult_init w) with (Return tt, w0).
  cbv beta iota.
  destruct r as [[u|e] w1] eqn:Er; cbv beta iota delta [fst snd].
  - destruct u. pose proof (Hens w0 tt w1 Er) as Hfile. split; [|exact Hfile].
    eapply try_step.
    + eapply try_step; [exact Er|]. reflexivity.
    + unfold print_result_file. eapply bind_step; [|reflexivity].
      eapply bind_step; [reflexivity|]. cbv beta. rewrite Hfile. reflexivity.
  - destruct e; cbv beta iota delta [is_Exception];
      try (eexists _, _; split;
           [ eapply try_step;
             [ eapply try_step; [exact Er|]; reflexivity
             | reflexivity ]
           | simpl; repeat split ]).
    + eapply try_step.
      * eapply try_step; [exact Er|]. reflexivity.
      * unfold print_result_file, bind, get, raise, ret.
        destruct (result_file w1); reflexivity.
    + eapply try_step.
      * eapply try_step; [exact Er|]. reflexivity.
      * unfold print_result_file, bind, get, raise, ret.
        destruct (result_file w1); reflexivity.
Qed.

(** ** What [stopTest] leaves behind *)

Lemma resolved__log_failure_at t w : resolved t (snd (_log_failure t w)).
Proof.
  unfold resolved. open_log.
  destruct (UTSGTestCaseInfo.points (infos w t)) eqn:Ep; simpl; rewrite ?upd_same; simpl;
    destruct (UTSGTestCaseInfo.message (infos w t)) eqn:Em; simpl; rewrite ?upd_same; simpl;
    split_ifs; rewrite ?upd_same; simpl; rewrite ?Ep; split; (reflexivity || discriminate).
Qed.

Lemma resolved__log_success_at t w : resolved t (snd (_log_success t w)).
Proof.
  unfold resolved. open_log.
  destruct (UTSGTestCaseInfo.points (infos w t)) eqn:Ep; simpl; rewrite ?upd_same; simpl;
    destruct (UTSGTestCaseInfo.message (infos w t)) eqn:Em; simpl; rewrite ?upd_same; simpl;
    split_ifs; rewrite ?upd_same; simpl; rewrite ?Ep; split; (reflexivity || discriminate).
Qed.

Lemma log_success_status t w :
  UTSGTestCaseInfo._status (infos (snd (_log_success t w)) t) = PASSED.
Proof.
  open_log.
  destruct (UTSGTestCaseInfo.points (infos w t)) eqn:Ep; simpl; rewrite ?upd_same; simpl;
    destruct (UTSGTestCaseInfo.message (infos w t)) eqn:Em; simpl; rewrite ?upd_same; simpl;
    split_ifs; rewrite ?upd_same; reflexivity.
Qed.

Lemma resolved__log_failure l t : preserves (resolved l) (_log_failure t).
Proof.
  intros w [Hc Hp]. destruct (Nat.eq_dec l t) as [->|Hne]; [apply resolved__log_failure_at|].
  unfold resolved. open_log.
  destruct (UTSGTestCaseInfo.points (infos w t)) eqn:Ep; simpl; rewrite ?upd_same; simpl;
    destruct (UTSGTestCaseInfo.message (infos w t)) eqn:Em; simpl; rewrite ?upd_same; simpl;
    split_ifs; rewrite ?upd_other by assumption; split; assumption.
Qed.

Lemma resolved__log_success l t : preserves (resolved l) (_log_success t).
Proof.
  intros w [Hc Hp]. destruct (Nat.eq_dec l t) as [->|Hne]; [apply resolved__log_success_at|].
  unfold resolved. open_log.
  destruct (UTSGTestCaseInfo.points (infos w t)) eqn:Ep; simpl; rewrite ?upd_same; simpl;
    destruct (UTSGTestCaseInfo.message (infos w t)) eqn:Em; simpl; rewrite ?upd_same; simpl;
    split_ifs; rewrite ?upd_other by assumption; split; assumption.
Qed.

Lemma status_terminal__log_failure l t : preserves (status_terminal l) (_log_failure t).
Proof.
  intros w Ht. destruct (Nat.eq_dec l t) as [->|Hne].
  - destruct (resolved__log_failure_at t w) as [Hc _]. unfold status_terminal, terminal.
    rewrite Hc. reflexivity.
  - unfold status_terminal. open_log.
    destruct (UTSGTestCaseInfo.points (infos w t)) eqn:Ep; simpl; rewrite ?upd_same; simpl;
      destruct (UTSGTestCaseInfo.message (infos w t)) eqn:Em; simpl; rewrite ?upd_same; simpl;
      split_ifs; rewrite ?upd_other by assumption; assumption.
Qed.

Lemma status_terminal__log_success l t : preserves (status_terminal l) (_log_success t).
Proof.
  intros w Ht. destruct (Nat.eq_dec l t) as [->|Hne].
  - destruct (resolved__log_success_at t w) as [Hc _]. unfold status_terminal, terminal.
    rewrite Hc. reflexivity.
  - unfold status_terminal. open_log.
    destruct (UTSGTestCaseInfo.points (infos w t)) eqn:Ep; simpl; rewrite ?upd_same; simpl;
      destruct (UTSGTestCaseInfo.message (infos w t)) eqn:Em; simpl; rewrite ?upd_same; simpl;
      split_ifs; rewrite ?upd_other by assumption; assumption.
Qed.

Lemma resolved_stopTest_subtest l s : preserves (resolved l) (stopTest_subtest s).
Proof.
  unfold stopTest_subtest. repeat pstep;
    first [ apply resolved__log_success | apply resolved__log_failure
          | (intros ? ?; assumption) ].
Qed.

Lemma status_terminal_stopTest_subtest l s : preserves (status_terminal l) (stopTest_subtest s).
Proof.
  unfold stopTest_subtest. repeat pstep;
    first [ apply status_terminal__log_success | apply status_terminal__log_failure
          | (intros ? ?; assumption) ].
Qed.

Lemma stopTest_subtest_resolves s w :
  status_terminal (UTSGSubTest.utsg_test_case_info s) w ->
  resolved (UTSGSubTest.utsg_test_case_info s) (snd (stopTest_subtest s w)).
Proof.
  unfold status_terminal, stopTest_subtest, bind, read_info. simpl.
  destruct (UTSGTestCaseInfo._status (infos w (UTSGSubTest.utsg_test_case_info s)));
    intros H; try discriminate;
    first [ apply resolved__log_success_at | apply resolved__log_failure_at ].
Qed.

Lemma for_each_stopTest_subtest_resolves ss : forall w s,
  In s ss ->
  status_terminal (UTSGSubTest.utsg_test_case_info s) w ->
  resolved (UTSGSubTest.utsg_test_case_info s) (snd (for_each stopTest_subtest ss w)).
Proof.
  induction ss as [|x ss IH]; intros w s Hin Ht; [destruct Hin|].
  simpl. unfold bind.
  destruct (returns_stopTest_subtest x w) as ([] & w1 & E1).
  assert (Hw1 : w1 = snd (stopTest_subtest x w)) by (rewrite E1; reflexivity).
  rewrite E1.
  destruct (ListDec.In_decidable
              (fun a b : UTSGSubTest.t =>
                 match a, b with
                 | UTSGSubTest.mk a1 a2, UTSGSubTest.mk b1 b2 =>
                     ltac:(unfold Decidable.decidable;
                           destruct (Nat.eq_dec a1 b1); destruct (Nat.eq_dec a2 b2);
                           [left; congruence | right; congruence ..])
                 end) s ss) as [Hss|Hss].
  - apply IH; [exact Hss|]. subst w1.
    exact (status_terminal_stopTest_subtest _ x w Ht).
  - destruct Hin as [->|Hin]; [|contradiction].
    apply (preserves_for_each (resolved (UTSGSubTest.utsg_test_case_info s)) stopTest_subtest ss
             (resolved_stopTest_subtest _)).
    subst w1. apply stopTest_subtest_resolves. exact Ht.
Qed.

(** X9.  [stopTest] always returns.  Afterwards the test's own outcome is
    not RUNNING, and every sub-test of the test whose outcome had a
    terminal status (PASSED, FAILED or CRASHED) is resolved: its status
    is PASSED or FAILED and its points are set, so that the summary of
    the run can add them up. *)
Theorem X9_stopTest_resolves_the_test_and_its_subtests :
  forall (test : loc) (w : World),
    let c := cases w test in
    exists w',
      stopTest test w = (Return tt, w')
      /\ UTSGTestCaseInfo._status (infos w' (UTSGTestCase.utsg_test_case_info c)) <> RUNNING
      /\ forall s, In s (UTSGTestCase.utsg_subtests c) ->
           terminal (UTSGTestCaseInfo._status (infos w (UTSGSubTest.utsg_test_case_info s))) = true ->
           completed (UTSGTestCaseInfo._status (infos w' (UTSGSubTest.utsg_test_case_info s))) = true
           /\ UTSGTestCaseInfo.points (infos w' (UTSGSubTest.utsg_test_case_info s)) <> None.
Proof.
  intros test w c.
  assert (Hloop : forall wp, infos wp = infos w ->
            exists w',
              (for_each stopTest_subtest (UTSGTestCase.utsg_subtests c) ;;
               i <- read_info (UTSGTestCase.utsg_test_case_info c) ;;
               if UTSGTestStatus_eqb (UTSGTestCaseInfo._status i) RUNNING then
                 _log_success (UTSGTestCase.utsg_test_case_info c)
               else ret tt) wp = (Return tt, w')
              /\ UTSGTestCaseInfo._status (infos w' (UTSGTestCase.utsg_test_case_info c)) <> RUNNING
              /\ forall s, In s (UTSGTestCase.utsg_subtests c) ->
                   terminal (UTSGTestCaseInfo._status (infos w (UTSGSubTest.utsg_test_case_info s))) = true ->
                   resolved (UTSGSubTest.utsg_test_case_info s) w').
  { intros wp Hwp.
    destruct (returns_for_each stopTest_subtest (UTSGTestCase.utsg_subtests c)
                returns_stopTest_subtest wp) as ([] & wf & Ef).
    assert (Hres : forall s, In s (UTSGTestCase.utsg_subtests c) ->
              terminal (UTSGTestCaseInfo._status (infos w (UTSGSubTest.utsg_test_case_info s))) = true ->
              resolved (UTSGSubTest.utsg_test_case_info s) wf).
    { intros s Hin Ht.
      replace wf with (snd (for_each stopTest_subtest (UTSGTestCase.utsg_subtests c) wp))
        by (rewrite Ef; reflexivity).
      apply for_each_stopTest_subtest_resolves; [exact Hin|].
      unfold status_terminal. rewrite Hwp. exact Ht. }
    unfold bind at 1. rewrite Ef.
    unfold bind, read_info. simpl.
    destruct (UTSGTestStatus_eqb
                (UTSGTestCaseInfo._status (infos wf (UTSGTestCase.utsg_test_case_info c))) RUNNING)
      eqn:Erun.
    - destruct (returns__log_success (UTSGTestCase.utsg_test_case_info c) wf) as ([] & w' & E').
      assert (Hw' : w' = snd (_log_success (UTSGTestCase.utsg_test_case_info c) wf))
        by (rewrite E'; reflexivity).
      exists w'. split; [exact E'|]. split.
      + rewrite Hw', log_success_status. discriminate.
      + intros s Hin Ht. rewrite Hw'.
        apply (resolved__log_success _ _ wf). exact (Hres s Hin Ht).
    - exists wf. split; [reflexivity|]. split.
      + intros Hr. rewrite Hr in Erun. discriminate.
      + exact Hres. }
  unfold stopTest, bind at 1, read_case. simpl. fold c.
  destruct (truthy_list (UTSGTestCase.images c));
    destruct (truthy_str (UTSGTestCase.message c)) eqn:Em;
    destruct (truthy_str (UTSGTestCase.output c)) eqn:Eo;
    try (destruct (UTSGTestCase.message c); [|discriminate Em]);
    try (destruct (UTSGTestCase.output c); [|discriminate Eo]);
    (unfold bind at 1; simpl; unfold bind at 1; simpl; unfold bind at 1; simpl;
     apply Hloop; reflexivity).
Qed.

(** ** Runs never fail on missing points *)

Lemma files__log_success t w : files t w (snd (_log_success t w)).
Proof.
  unfold files. open_log.
  destruct (UTSGTestCaseInfo.points (infos w t)) eqn:Ep; simpl; rewrite ?upd_same; simpl;
    destruct (UTSGTestCaseInfo.message (infos w t)) eqn:Em; simpl; rewrite ?upd_same; simpl;
    split_ifs; rewrite ?upd_same; simpl; rewrite ?Ep;
    (repeat split; try reflexivity; try discriminate;
     [ intros l Hl; rewrite ?upd_other by assumption; reflexivity
     | intros k x; unfold upd; destruct (Nat.eqb k _) eqn:E; [|tauto];
       apply Nat.eqb_eq in E; subst k;
       intros Hin; apply in_app_or in Hin; destruct Hin as [Hin|[Hin|[]]];
       [left; exact Hin | right; congruence] ]).
Qed.

Lemma files__log_failure t w : files t w (snd (_log_failure t w)).
Proof.
  unfold files. open_log.
  destruct (UTSGTestCaseInfo.points (infos w t)) eqn:Ep; simpl; rewrite ?upd_same; simpl;
    destruct (UTSGTestCaseInfo.message (infos w t)) eqn:Em; simpl; rewrite ?upd_same; simpl;
    split_ifs; rewrite ?upd_same; simpl; rewrite ?Ep;
    (repeat split; try reflexivity; try discriminate;
     [ intros l Hl; rewrite ?upd_other by assumption; reflexivity
     | intros k x; unfold upd; destruct (Nat.eqb k _) eqn:E; [|tauto];
       apply Nat.eqb_eq in E; subst k;
       intros Hin; apply in_app_or in Hin; destruct Hin as [Hin|[Hin|[]]];
       [left; exact Hin | right; congruence] ]).
Qed.

Lemma well_formed_at_files n m t w w' :
  t < n -> files t w w' -> well_formed_at n m w -> well_formed_at n m w'.
Proof.
  intros Ht (E1 & E2 & E3 & Hi & Hp & Hl) ((Hf & Hc) & Hn & Hm).
  split; [split|split; congruence].
  - intros k x Hin. rewrite E1. destruct (Hl k x Hin) as [Hold| ->].
    + destruct (Hf k x Hold) as [Hx Hpx]. split; [exact Hx|].
      destruct (Nat.eq_dec x t) as [->|Hne]; [exact Hp|]. rewrite Hi by exact Hne. exact Hpx.
    + split; [lia | exact Hp].
  - intros c Hc'. rewrite E1, E3. apply Hc. rewrite <- E2. exact Hc'.
Qed.

Lemma well_formed_at__log_success n m t :
  t < n -> preserves (well_formed_at n m) (_log_success t).
Proof. intros Ht w H. exact (well_formed_at_files n m t w _ Ht (files__log_success t w) H). Qed.

Lemma well_formed_at__log_failure n m t :
  t < n -> preserves (well_formed_at n m) (_log_failure t).
Proof. intros Ht w H. exact (well_formed_at_files n m t w _ Ht (files__log_failure t w) H). Qed.

(** A step that leaves the heaps alone. *)
Lemma well_formed_at_modify n m f :
  (forall w, infos (f w) = infos w /\ lists (f w) = lists w /\ cases (f w) = cases w
             /\ next_info (f w) = next_info w /\ next_case (f w) = next_case w) ->
  preserves (well_formed_at n m) (modify f).
Proof.
  intros Hf w ((Hfi & Hc) & Hn & Hm). destruct (Hf w) as (E1 & E2 & E3 & E4 & E5).
  unfold modify. simpl. unfold well_formed_at, well_formed, filed_ok, cases_ok.
  rewrite E1, E2, E3, E4, E5. auto.
Qed.

Lemma well_formed_at_modify_info n m l f :
  (forall i, UTSGTestCaseInfo.points i <> None -> UTSGTestCaseInfo.points (f i) <> None) ->
  preserves (well_formed_at n m) (modify_info l f).
Proof.
  intros Hf w ((Hfi & Hc) & Hn & Hm). unfold modify_info, modify. simpl.
  split; [split|split; assumption].
  - intros k x Hin. simpl in *. destruct (Hfi k x Hin) as [Hx Hp]. split; [exact Hx|].
    unfold upd. destruct (Nat.eqb x l) eqn:E; [|exact Hp].
    apply Nat.eqb_eq in E. subst x. apply Hf. exact Hp.
  - exact Hc.
Qed.

Lemma well_formed_at___add__ n m a b : preserves (well_formed_at n m) (__add__ a b).
Proof.
  intros w ((Hfi & Hc) & Hn & Hm). unfold __add__, bind, read_list, list_extend, modify, ret.
  simpl. split; [split|split; assumption].
  - intros k x Hin. simpl in *. unfold upd in Hin.
    destruct (Nat.eqb k (UTSGRunSummary.tests a)); [|exact (Hfi k x Hin)].
    apply in_app_or in Hin. destruct Hin as [Hin|Hin]; exact (Hfi _ x Hin).
  - exact Hc.
Qed.

Lemma preserves_for_each_in {A} P (body : A -> M unit) l :
  (forall a, In a l -> preserves P (body a)) -> preserves P (for_each body l).
Proof.
  induction l as [|x l IH]; intros Hb; simpl.
  - apply preserves_ret.
  - apply preserves_bind; [apply Hb; left; reflexivity | intros _; apply IH].
    intros a Ha. apply Hb. right. exact Ha.
Qed.

(** Reading a constructed test case gives one whose outcomes exist. *)
Lemma well_formed_at_read_case {B} n m test (k : UTSGTestCase.t -> M B) :
  test < m ->
  (forall c, UTSGTestCase.utsg_test_case_info c < n ->
             (forall s, In s (UTSGTestCase.utsg_subtests c) ->
                        UTSGSubTest.utsg_test_case_info s < n) ->
             preserves (well_formed_at n m) (k c)) ->
  preserves (well_formed_at n m) (bind (read_case test) k).
Proof.
  intros Ht Hk w H. unfold bind, read_case. simpl.
  destruct H as ((Hfi & Hc) & Hn & Hm).
  assert (Hlt : test < next_case w) by lia.
  destruct (Hc test Hlt) as [Hi Hs]. rewrite Hn in Hi, Hs.
  apply Hk; [exact Hi | exact Hs |]. split; [split; assumption | split; assumption].
Qed.

Ltac wf_leaf :=
  lazymatch goal with
  | |- preserves _ (_log_success _) => apply well_formed_at__log_success; solve [auto]
  | |- preserves _ (_log_failure _) => apply well_formed_at__log_failure; solve [auto]
  | |- preserves _ (modify_info _ _) =>
      apply well_formed_at_modify_info; intros ? ?; simpl; solve [assumption | discriminate]
  | |- preserves _ (modify _) => apply well_formed_at_modify; intros ?; repeat split
  | |- preserves _ (modify_self _) =>
      unfold modify_self; apply well_formed_at_modify; intros ?; repeat split
  | |- preserves _ stop =>
      unfold stop, modify_self; apply well_formed_at_modify; intros ?; repeat split
  | |- preserves _ (__add__ _ _) => apply well_formed_at___add__
  | |- preserves _ (__post_init___loop _ _) => apply preserves_post_init_loop
  | |- preserves _ (first_crashed _ _) => apply preserves_first_crashed
  end.

Ltac wf_step :=
  lazymatch goal with
  | |- preserves _ (_log_failure _) => fail
  | |- preserves _ (_log_success _) => fail
  | |- preserves _ (__add__ _ _) => fail
  | |- preserves _ (for_each _ _) => apply preserves_for_each_in; intros ? ?
  | _ => pstep
  end.

Ltac wf_tac := repeat wf_step; try wf_leaf.

Lemma well_formed_at_addSubTest n m test err :
  test < m -> preserves (well_formed_at n m) (addSubTest test err).
Proof.
  intros Ht. unfold addSubTest. destruct err; [|apply preserves_ret].
  apply preserves_bind; [wf_tac | intros _].
  apply well_formed_at_read_case; [exact Ht|]. intros c Hc Hs. wf_tac.
Qed.

Lemma well_formed_at_deliver float_repr final_results_template n m ev :
  names_a_test_case m ev = true ->
  (forall a b c d e f, ev <> ev_UTSGTestCase a b c d e f) ->
  (forall a b c d e f g h i, ev <> ev_add_graded_subTest a b c d e f g h i) ->
  preserves (well_formed_at n m) (deliver float_repr final_results_template ev).
Proof.
  intros Hv Hn1 Hn2. destruct ev; simpl in Hv; try apply Nat.ltb_lt in Hv; unfold deliver.
  - unfold startTestRun, modify_self. wf_tac.
  - unfold stopTestRun, summarize_partitions, UTSGRunSummary_new, __post_init__,
      score_run, get_score, set_score, get_message, set_message, set_recorded_tests,
      dump_results, modify_results, modify_self.
    wf_tac.
  - unfold startTest, set_utsg_score_floor, set_utsg_score_ceiling, modify_self. wf_tac.
  - unfold stopTest. apply well_formed_at_read_case; [exact Hv|]. intros c Hc Hs.
    unfold stopTest_subtest, set_images, set_message, set_output, modify_results, modify_self.
    wf_tac.
  - unfold addError, get_output, set_output, set_gradable, set_score, stop,
      modify_results, modify_self.
    wf_tac.
  - unfold addFailure. apply preserves_bind; [wf_tac | intros _].
    apply well_formed_at_read_case; [exact Hv|]. intros c Hc Hs. wf_tac.
  - unfold addSuccess. apply well_formed_at_read_case; [exact Hv|]. intros c Hc Hs. wf_tac.
  - unfold addExpectedFailure. wf_tac.
  - unfold addUnexpectedSuccess, set_message, set_gradable, stop, modify_results, modify_self.
    wf_tac.
  - apply well_formed_at_addSubTest. exact Hv.
  - exfalso. eapply Hn1. reflexivity.
  - exfalso. eapply Hn2. reflexivity.
  - unfold __enter__, subtest_context_manager___enter__. wf_tac.
  - unfold __exit__, subtest_context_manager___exit__.
    repeat (wf_step || (apply well_formed_at_addSubTest; exact Hv));
      first [ apply well_formed_at_addSubTest; exact Hv | wf_leaf ].
Qed.

Lemma well_formed_UTSGTestCase_init n d mp pl inc h w :
  well_formed w -> well_formed (snd (UTSGTestCase_init n d mp pl inc h w)).
Proof.
  intros [Hf Hc]. unfold UTSGTestCase_init, bind, alloc_info, alloc_case. simpl. split.
  - intros k l Hin. simpl in *. destruct (Hf k l Hin) as [Hl Hp]. split; [lia|].
    rewrite upd_other by lia. exact Hp.
  - intros t Ht. simpl in *. unfold upd. destruct (Nat.eqb t (next_case w)) eqn:E; simpl.
    + split; [lia | intros s []].
    + apply Nat.eqb_neq in E. assert (Hlt : t < next_case w) by lia.
      destruct (Hc t Hlt) as [Hi Hs]. split; [lia|]. intros s Hin. specialize (Hs s Hin). lia.
Qed.

Lemma well_formed_add_graded_subTest this n d mp pl inc h ip ps w :
  this < next_case w ->
  well_formed w -> well_formed (snd (add_graded_subTest this n d mp pl inc h ip ps w)).
Proof.
  intros Ht [Hf Hc].
  unfold add_graded_subTest, bind, read_case, read_info, alloc_info, modify_case, modify, ret.
  simpl. split.
  - intros k l Hin. simpl in *. destruct (Hf k l Hin) as [Hl Hp]. split; [lia|].
    rewrite upd_other by lia. exact Hp.
  - intros t Ht'. simpl in *. unfold upd.
    destruct (Nat.eqb t this) eqn:E; simpl.
    + destruct (Hc this Ht) as [Hi Hs]. split; [lia|]. intros s Hin.
      apply in_app_or in Hin. destruct Hin as [Hin|[<-|[]]]; [specialize (Hs s Hin); lia|].
      simpl. lia.
    + destruct (Hc t Ht') as [Hi Hs]. split; [lia|]. intros s Hin. specialize (Hs s Hin). lia.
Qed.

Lemma well_formed_deliver float_repr final_results_template ev w :
  names_a_test_case (next_case w) ev = true ->
  well_formed w ->
  well_formed (snd (deliver float_repr final_results_template ev w)).
Proof.
  intros Hv Hw.
  assert (Hat : well_formed_at (next_info w) (next_case w) w) by (split; [exact Hw|split; reflexivity]).
  destruct ev;
    try (refine (proj1 (well_formed_at_deliver float_repr final_results_template
                          (next_info w) (next_case w) _ Hv _ _ w Hat));
         intros; discriminate).
  - unfold deliver, bind.
    pose proof (well_formed_UTSGTestCase_init methodName description max_points
                  points_lost_on_failure include_in_results hidden w Hw) as H.
    destruct (UTSGTestCase_init methodName description max_points points_lost_on_failure
                include_in_results hidden w) as [[a|e] w']; exact H.
  - simpl in Hv. apply Nat.ltb_lt in Hv. unfold deliver, bind.
    pose proof (well_formed_add_graded_subTest this name description max_points
                  points_lost_on_failure include_in_results hidden
                  include_params_in_description params w Hv Hw) as H.
    destruct (add_graded_subTest this name description max_points points_lost_on_failure
                include_in_results hidden include_params_in_description params w)
      as [[a|e] w']; exact H.
Qed.

Lemma well_formed_deliver_all float_repr final_results_template evs : forall w,
  valid_run float_repr final_results_template evs w = true ->
  well_formed w ->
  well_formed (deliver_all float_repr final_results_template evs w).
Proof.
  induction evs as [|ev evs IH]; intros w Hv Hw; simpl in *; [exact Hw|].
  apply andb_true_iff in Hv. destruct Hv as [Hev Hrest].
  apply IH; [exact Hrest|]. apply well_formed_deliver; assumption.
Qed.

Lemma filed_ok_summable w k : filed_ok w -> summable w (lists w k) = true.
Proof.
  intros Hf. unfold summable. apply forallb_forall. intros x Hin.
  destruct (Hf k x Hin) as [_ Hp].
  destruct (UTSGTestCaseInfo.points (infos w x)); [|contradiction].
  destruct (completed _); reflexivity.
Qed.

Lemma well_formed_fresh_world : well_formed fresh_world.
Proof.
  split.
  - intros k l Hin. exfalso. revert Hin. unfold fresh_world. simpl. unfold upd.
    repeat match goal with |- context [if ?b then _ else _] => destruct b end; intros [].
  - intros t Ht. exfalso. revert Ht. unfold fresh_world. simpl. lia.
Qed.

(** X10.  A run never fails on missing points.  Start from a store in
    which every filed outcome exists and has points and the outcomes of
    the test cases and their sub-tests exist (the store fresh from
    [__init__] is one), and deliver any sequence of recorder and scope
    operations, each naming a test case that has been constructed.  The
    store stays that way, and [stopTestRun] then returns and writes the
    result file whenever floor <= ceiling; the only exception it can raise
    is the [UngradableError] for a floor above the ceiling, never the
    [TypeError] of adding [None] points. *)
Theorem X10_stopTestRun_never_fails_on_missing_points :
  forall float_repr final_results_template (evs : list event) (w : World),
    well_formed w ->
    valid_run float_repr final_results_template evs w = true ->
    let w1 := deliver_all float_repr final_results_template evs w in
    well_formed w1
    /\ ((UTSGTestResult._utsg_score_floor (recorder w1)
         <= UTSGTestResult._utsg_score_ceiling (recorder w1))%Q ->
        exists w2,
          stopTestRun float_repr final_results_template w1 = (Return tt, w2)
          /\ result_file w2 = Some (UTSGTestResult.utsg_results (recorder w2)))
    /\ (forall e w2,
          stopTestRun float_repr final_results_template w1 = (Raise e, w2) ->
          (UTSGTestResult._utsg_score_ceiling (recorder w1)
           < UTSGTestResult._utsg_score_floor (recorder w1))%Q
          /\ exists message, e = UngradableError message).
Proof.
  intros fr tmpl evs w Hw Hv w1.
  assert (Hw1 : well_formed w1) by (apply well_formed_deliver_all; assumption).
  split; [exact Hw1|].
  destruct Hw1 as [Hf _].
  pose proof (filed_ok_summable w1 (UTSGTestResult.hidden_tests_info (recorder w1)) Hf) as Hh.
  pose proof (filed_ok_summable w1 (UTSGTestResult.visible_tests_info (recorder w1)) Hf) as Hvis.
  split.
  - intros Hle. apply Qlt_bool_false in Hle.
    destruct (stopTestRun_ok fr tmpl w1 Hle Hh Hvis) as (h & v & t & w2 & _ & E & Efile & _).
    exists w2. split; assumption.
  - intros e w2 E.
    destruct (Qlt_bool (UTSGTestResult._utsg_score_ceiling (recorder w1))
                       (UTSGTestResult._utsg_score_floor (recorder w1))) eqn:Eb.
    + split; [apply Qlt_bool_true; exact Eb|].
      revert E. unfold stopTestRun, bind, self. simpl. rewrite Eb.
      intros E. inversion E. eexists. reflexivity.
    + destruct (stopTestRun_ok fr tmpl w1 Eb Hh Hvis) as (h & v & t & w3 & _ & E3 & _).
      rewrite E3 in E. discriminate.
Qed.

Lemma X10_witness :
  exists w2,
    stopTestRun no_repr no_template
      (deliver_all no_repr no_template one_subtest_run fresh_world) = (Return tt, w2)
    /\ result_file w2 = Some (UTSGTestResult.utsg_results (recorder w2)).
Proof.
  refine (proj1 (proj2 (X10_stopTestRun_never_fails_on_missing_points no_repr no_template
                          one_subtest_run fresh_world well_formed_fresh_world _)) _).
  - reflexivity.
  - vm_compute. discriminate.
Defined.
